(** * Correspondence weighting engine: a shallow embedding

    This development embeds [app/routes/utils/graph_weighting_engine.py]
    (class [GraphWeightingEngine]) and states its specification.

    Conventions of the embedding.
    - A Python [float] is a binary64 number: Rocq's primitive [float], with
      the same round-to-nearest-even arithmetic.  Numeric inputs (an
      altitude given as [45]) are represented by their binary64 value.
    - [d.get(k)] on an input dictionary is an [option]: [None] when the key
      is absent.  Input dictionaries with a fixed set of keys (a
      relationship, an entity, a position, the context) are records of such
      options, each field at the type the code expects of it.
    - [planetary_positions] and [graph_data] are finite maps keyed by
      strings ([gmap]).
    - Dictionary literals of the code whose iteration order matters are
      association lists in source order.
    - A call that can raise returns an [outcome]. *)

From Stdlib Require Import Floats ZArith String List Bool Lia.
From stdpp Require Import base gmap strings.
Import ListNotations.

Set Warnings "-inexact-float".
Local Open Scope string_scope.
Local Open Scope float_scope.

(** ** Python built-ins on floats *)

(** [min(a, b)]: the first argument unless the second is smaller. *)
Definition py_min (a b : float) : float := if b <? a then b else a.

(** [max(a, b)]: the first argument unless the second is greater. *)
Definition py_max (a b : float) : float := if a <? b then b else a.

(** [max(min(x, hi), lo)], the clamp idiom of the engine. *)
Definition clamp (x lo hi : float) : float := py_max (py_min x hi) lo.

(** [max(iterable)] with the [else] value used for an empty iterable. *)
Definition py_max_list (default : float) (l : list float) : float :=
  match l with
  | [] => default
  | x :: xs => fold_left py_max xs x
  end.

(** Nearest integer to [num / den] ([den > 0]), ties to the even one. *)
Definition round_half_even (num den : Z) : Z :=
  let q := (num / den)%Z in
  let r := (num mod den)%Z in
  match (2 * r ?= den)%Z with
  | Lt => q
  | Gt => (q + 1)%Z
  | Eq => if Z.even q then q else (q + 1)%Z
  end.

(** The binary64 number nearest to [n / d], with sign [s]: what reading a
    decimal string back gives. *)
Definition float_of_ratio (s : bool) (n : Z) (d : positive) : float :=
  match n with
  | Zpos p =>
      SF2Prim
        (let '(mz, ez, lz) :=
           SFdiv_core_binary prec emax (Zpos p) 0 (Zpos d) 0 in
         binary_round_aux prec emax s mz ez lz)
  | _ => if s then neg_zero else zero
  end.

(** [round(x, ndigits)] for [ndigits >= 0]: the exact value of [x] is
    rounded half-even to [ndigits] decimals and the decimal is converted
    back to the nearest float; zeros, infinities and NaN round to
    themselves. *)
Definition py_round (x : float) (ndigits : nat) : float :=
  match Prim2SF x with
  | S754_finite s m e =>
      let p10 := (10 ^ Z.of_nat ndigits)%Z in
      let n := match e with
               | Zneg k => round_half_even (Zpos m * p10) (2 ^ Zpos k)
               | _ => (Zpos m * 2 ^ e * p10)%Z
               end in
      float_of_ratio s n (Z.to_pos p10)
  | _ => x
  end.

(** ** Python built-ins on strings and dictionaries *)

(** [a == b] on values that are a string or [None]. *)
Definition py_eq (a b : option string) : bool :=
  match a, b with
  | Some x, Some y => String.eqb x y
  | None, None => true
  | _, _ => false
  end.

(** [x in l] for a list of strings. *)
Definition py_in (x : string) (l : list string) : bool :=
  existsb (String.eqb x) l.

(** [needle in hay] for two strings: substring test. *)
Fixpoint py_contains (needle hay : string) : bool :=
  String.prefix needle hay ||
  match hay with
  | EmptyString => false
  | String _ rest => py_contains needle rest
  end.

(** [d.get(k)] on a dictionary literal. *)
Fixpoint dict_get {V : Type} (k : string) (d : list (string * V)) : option V :=
  match d with
  | [] => None
  | (k', v) :: rest => if String.eqb k k' then Some v else dict_get k rest
  end.

(** [d.get(k)] when the key itself may be [None] (never a key here). *)
Definition dict_get_opt {V : Type} (k : option string) (d : list (string * V))
  : option V :=
  match k with
  | Some s => dict_get s d
  | None => None
  end.

(** [d[k] = f(d[k])] on an existing key; the order of keys is kept. *)
Fixpoint dict_update {V : Type} (k : string) (f : V -> V)
  (d : list (string * V)) : list (string * V) :=
  match d with
  | [] => []
  | (k', v) :: rest =>
      if String.eqb k k' then (k', f v) :: rest
      else (k', v) :: dict_update k f rest
  end.

Definition dict_values {V : Type} (d : list (string * V)) : list V :=
  map snd d.

(** Truthiness of a string or [None]. *)
Definition truthy_str (s : option string) : bool :=
  match s with
  | Some (String _ _) => true
  | _ => false
  end.

(** Truthiness of a dictionary or [None]. *)
Definition truthy_map {V : Type} (m : option (gmap string V)) : bool :=
  match m with
  | Some d => negb (Nat.eqb (size d) 0)
  | None => false
  end.

(** ** Exceptions *)

Inductive exception : Type :=
| AttributeError.

Inductive outcome (A : Type) : Type :=
| Returns (a : A)
| Raises (e : exception).
Arguments Returns {A} a.
Arguments Raises {A} e.

(** ** Data *)

(** One entry of [planetary_positions]. *)
Record Position : Type := {
  pos_sign : option string;
  pos_altitude : option float;
  pos_is_cazimi : option bool;
  pos_is_combust : option bool;
  pos_is_retrograde : option bool;
  pos_is_out_of_bounds : option bool
}.

(** The [target_entity] of a relationship. *)
Record Entity : Type := {
  ent_name : option string;
  ent_type : option string
}.

Record Relationship : Type := {
  source_planet : option string;
  target_entity : option Entity;
  target_type : option string;
  target_name : option string;
  relationship_type : option string
}.

(** [graph_data]: adjacency, node to neighbours. *)
Abbreviation Graph := (gmap string (list string)).

Record Context : Type := {
  hour_ruler : option string;
  day_ruler : option string;
  current_weekday : option string;
  planetary_positions : option (gmap string Position);
  graph_data : option Graph
}.

(** [self.weight_factors]. *)
Record WeightFactors : Type := {
  wf_graph_proximity : float;
  wf_astrological_authority : float;
  wf_temporal_relevance : float;
  wf_elemental_dominance : float
}.

Record GraphWeightingEngine : Type := {
  weight_factors : WeightFactors
}.

Abbreviation Weather := (list (string * float)).

Record Breakdown : Type := {
  bd_graph_proximity : float;
  bd_astrological_authority : float;
  bd_temporal_relevance : float;
  bd_elemental_dominance : float;
  bd_elemental_weather : Weather
}.

Record WeightResult : Type := {
  final_weight : float;
  breakdown : Breakdown;
  rank : string;
  confidence : float
}.

Record Dignities : Type := {
  rulership : string;
  exaltation : string;
  detriment : string;
  fall : string
}.

Definition ESSENTIAL_DIGNITIES : list (string * Dignities) := [
  ("Sun", {| rulership := "Leo"; exaltation := "Aries";
             detriment := "Aquarius"; fall := "Libra" |});
  ("Moon", {| rulership := "Cancer"; exaltation := "Taurus";
              detriment := "Capricorn"; fall := "Scorpio" |});
  ("Mercury", {| rulership := "Gemini"; exaltation := "Virgo";
                 detriment := "Sagittarius"; fall := "Pisces" |});
  ("Venus", {| rulership := "Taurus"; exaltation := "Pisces";
               detriment := "Scorpio"; fall := "Virgo" |});
  ("Mars", {| rulership := "Aries"; exaltation := "Capricorn";
              detriment := "Libra"; fall := "Cancer" |});
  ("Jupiter", {| rulership := "Sagittarius"; exaltation := "Cancer";
                 detriment := "Gemini"; fall := "Capricorn" |});
  ("Saturn", {| rulership := "Capricorn"; exaltation := "Libra";
                detriment := "Cancer"; fall := "Aries" |})
].

(** ** The engine *)

(** [GraphWeightingEngine.__init__]. *)
Definition init : GraphWeightingEngine :=
  {| weight_factors :=
       {| wf_graph_proximity := 0.3;
          wf_astrological_authority := 0.4;
          wf_temporal_relevance := 0.2;
          wf_elemental_dominance := 0.1 |} |}.

(** *** 1. Graph proximity *)

Definition direct_connections : list (string * list string) := [
  ("Mars", ["Iron"; "Sachiel"; "Tuesday"; "Red"]);
  ("Sun", ["Gold"; "Michael"; "Sunday"; "Yellow"]);
  ("Moon", ["Silver"; "Gabriel"; "Monday"; "Silver"])
].

Definition _find_shortest_path_length (source : option string)
  (target : string) (graph_data : Graph) : Z :=
  if py_eq source (Some target) then 0%Z
  else
    if py_in target (default [] (dict_get_opt source direct_connections))
    then 1%Z
    else 3%Z.

Definition calculate_graph_proximity_weight (source_entity : option string)
  (target_entity : string) (graph_data : Graph) : float :=
  let path_length :=
    _find_shortest_path_length source_entity target_entity graph_data in
  if (path_length =? 1)%Z then 1.0
  else if (path_length =? 2)%Z then 0.7
  else if (path_length =? 3)%Z then 0.4
  else if (path_length =? 4)%Z then 0.2
  else 0.1.

(** *** 2. Astrological authority *)

Definition _get_dignity_multiplier (planet sign : string) : float :=
  let dignity := dict_get planet ESSENTIAL_DIGNITIES in
  if py_eq (Some sign) (option_map rulership dignity) then 1.5
  else if py_eq (Some sign) (option_map exaltation dignity) then 1.25
  else if py_eq (Some sign) (option_map detriment dignity) then 0.75
  else if py_eq (Some sign) (option_map fall dignity) then 0.5
  else 1.0.

Definition calculate_astrological_authority (planet : option string)
  (planetary_positions : gmap string Position) : float :=
  match planet with
  | None => 0.5
  | Some planet =>
  match planetary_positions !! planet with
  | None => 0.5
  | Some position =>
      let authority := 1.0 in
      let sign := default "" (pos_sign position) in
      let dignity_mult := _get_dignity_multiplier planet sign in
      let authority := authority * dignity_mult in
      let altitude := default 0 (pos_altitude position) in
      let visibility_mult :=
        if 0 <=? altitude then 1.0 + (altitude / 90) * 0.5 else 0.6 in
      let authority := authority * visibility_mult in
      let authority :=
        if default false (pos_is_cazimi position) then authority * 1.3
        else if default false (pos_is_combust position) then authority * 0.3
        else authority in
      let authority :=
        if default false (pos_is_retrograde position) then authority * 0.7
        else authority in
      let authority :=
        if String.eqb planet "Moon"
           && default false (pos_is_out_of_bounds position)
        then authority * 0.4
        else authority in
      clamp authority 0.1 3.0
  end
  end.

(** *** 3. Temporal relevance *)

Definition calculate_temporal_relevance (relationship : Relationship)
  (hour_ruler day_ruler current_weekday : option string) : float :=
  let source_planet := source_planet relationship in
  let target_type := target_type relationship in
  let target_name := target_name relationship in
  let rel_type := relationship_type relationship in
  let base_relevance :=
    if py_eq source_planet hour_ruler then
      let base_relevance := 1.8 in
      if py_eq target_type (Some "Weekday")
         && negb (py_eq target_name current_weekday)
      then base_relevance * 0.3
      else base_relevance
    else if py_eq source_planet day_ruler then
      let base_relevance := 1.2 in
      if py_eq target_type (Some "Weekday")
         && py_eq target_name current_weekday
      then base_relevance * 1.3
      else base_relevance
    else 0.6 in
  let base_relevance :=
    if py_eq rel_type (Some "HOUR_RULED_BY") then base_relevance * 1.5
    else if py_eq rel_type (Some "DAY_RULED_BY") then base_relevance * 1.0
    else if py_eq rel_type (Some "HAS_ANALOGY_WITH") then base_relevance * 0.8
    else base_relevance in
  clamp base_relevance 0.1 2.0.

(** *** 4. Elemental dominance *)

Definition _get_entity_elements (entity : Entity) : list string :=
  let entity_name := default "" (ent_name entity) in
  if py_contains "Iron" entity_name then ["Fire"; "Dry"]
  else if py_contains "Silver" entity_name then ["Water"; "Moist"]
  else if py_contains "Gold" entity_name then ["Fire"; "Hot"]
  else [].

Definition calculate_elemental_dominance (target_entity : Entity)
  (current_elemental_weather : Weather) : float :=
  let entity_elements := _get_entity_elements target_entity in
  match entity_elements with
  | [] => 1.0
  | _ =>
      let alignment_score :=
        fold_left
          (fun score '(element, strength) =>
             if py_in element entity_elements then score + strength * 0.3
             else score)
          current_elemental_weather 1.0 in
      clamp alignment_score 0.5 1.5
  end.

(** The initial [elemental_weather] of [calculate_current_elemental_weather]. *)
Definition initial_weather : Weather := [
  ("Fire", 0.0); ("Earth", 0.0); ("Air", 0.0); ("Water", 0.0);
  ("Hot", 0.0); ("Cold", 0.0); ("Dry", 0.0); ("Moist", 0.0)
].

Definition ruler_elements : list (string * list (string * float)) := [
  ("Sun", [("Fire", 0.8); ("Hot", 0.9); ("Dry", 0.6)]);
  ("Moon", [("Water", 0.8); ("Cold", 0.6); ("Moist", 0.9)]);
  ("Mars", [("Fire", 0.9); ("Hot", 0.8); ("Dry", 0.7)]);
  ("Venus", [("Earth", 0.7); ("Moist", 0.8)]);
  ("Mercury", [("Air", 0.8); ("Cold", 0.6); ("Dry", 0.6)]);
  ("Jupiter", [("Air", 0.7); ("Hot", 0.7); ("Moist", 0.6)]);
  ("Saturn", [("Earth", 0.9); ("Cold", 0.9); ("Dry", 0.8)])
].

(** [for element, strength in table.items():
       elemental_weather[element] += strength * influence]. *)
Definition add_contributions (influence : float)
  (table : list (string * float)) (elemental_weather : Weather) : Weather :=
  fold_left
    (fun weather '(element, strength) =>
       dict_update element (fun v => v + strength * influence) weather)
    table elemental_weather.

(** The axis totals of [calculate_current_elemental_weather], before the
    normalisation step. *)
Definition elemental_totals (hour_ruler day_ruler : option string) : Weather :=
  let elemental_weather := initial_weather in
  let elemental_weather :=
    match dict_get_opt hour_ruler ruler_elements with
    | Some table => add_contributions 1.0 table elemental_weather
    | None => elemental_weather
    end in
  match dict_get_opt day_ruler ruler_elements with
  | Some table =>
      if negb (py_eq day_ruler hour_ruler)
      then add_contributions 0.6 table elemental_weather
      else elemental_weather
  | None => elemental_weather
  end.

Definition calculate_current_elemental_weather
  (planetary_positions : gmap string Position)
  (hour_ruler day_ruler : option string) : Weather :=
  let elemental_weather := elemental_totals hour_ruler day_ruler in
  let max_val := py_max_list 1.0 (dict_values elemental_weather) in
  if 0 <? max_val
  then map (fun '(element, v) => (element, v / max_val)) elemental_weather
  else elemental_weather.

(** *** 5. Master weighting function *)

Definition _calculate_rank (weight : float) : string :=
  if 2.0 <=? weight then "dominant"
  else if 1.5 <=? weight then "strong"
  else if 1.0 <=? weight then "moderate"
  else if 0.5 <=? weight then "weak"
  else "minimal".

Definition _calculate_confidence (weight : float) (context : Context) : float :=
  let data_completeness := 1.0 in
  let data_completeness :=
    if negb (truthy_map (planetary_positions context))
    then data_completeness * 0.5 else data_completeness in
  let data_completeness :=
    if negb (truthy_str (hour_ruler context))
    then data_completeness * 0.8 else data_completeness in
  let data_completeness :=
    if negb (truthy_map (graph_data context))
    then data_completeness * 0.7 else data_completeness in
  let weight_stability := py_min (weight / 2.0) 1.0 in
  py_round (data_completeness * weight_stability) 3.

(** The weighted sum of the four sub-scores, before rounding. *)
Definition combine (self : GraphWeightingEngine)
  (graph_weight astro_weight temporal_weight elemental_weight : float) : float :=
  graph_weight * wf_graph_proximity (weight_factors self)
  + astro_weight * wf_astrological_authority (weight_factors self)
  + temporal_weight * wf_temporal_relevance (weight_factors self)
  + elemental_weight * wf_elemental_dominance (weight_factors self).

Definition calculate_final_weight (self : GraphWeightingEngine)
  (relationship : Relationship) (context : Context) : outcome WeightResult :=
  let source_planet := source_planet relationship in
  match target_entity relationship with
  | None => Raises AttributeError
  | Some target_entity =>
      let graph_weight :=
        calculate_graph_proximity_weight source_planet
          (default "" (ent_name target_entity))
          (default ∅ (graph_data context)) in
      let astro_weight :=
        calculate_astrological_authority source_planet
          (default ∅ (planetary_positions context)) in
      let temporal_weight :=
        calculate_temporal_relevance relationship (hour_ruler context)
          (day_ruler context) (current_weekday context) in
      let elemental_weather :=
        calculate_current_elemental_weather
          (default ∅ (planetary_positions context))
          (hour_ruler context) (day_ruler context) in
      let elemental_weight :=
        calculate_elemental_dominance target_entity elemental_weather in
      let final_weight :=
        combine self graph_weight astro_weight temporal_weight
          elemental_weight in
      Returns
        {| final_weight := py_round final_weight 3;
           breakdown :=
             {| bd_graph_proximity := py_round graph_weight 3;
                bd_astrological_authority := py_round astro_weight 3;
                bd_temporal_relevance := py_round temporal_weight 3;
                bd_elemental_dominance := py_round elemental_weight 3;
                bd_elemental_weather := elemental_weather |};
           rank := _calculate_rank final_weight;
           confidence := _calculate_confidence final_weight context |}
  end.

(** ** Specification-side definitions

    The definitions below follow the words of the specification; the
    theorems compare them with the engine above. *)

(** *** Shortest paths in a graph (specification of GraphProximityScorer) *)

(** An undirected edge of the adjacency map. *)
Definition spec_adjacent (g : Graph) (a b : string) : Prop :=
  (exists l, g !! a = Some l /\ In b l) \/ (exists l, g !! b = Some l /\ In a l).

(** [spec_walk g n a b]: a walk of [n] hops from [a] to [b]. *)
Inductive spec_walk (g : Graph) : nat -> string -> string -> Prop :=
| spec_walk_here (a : string) : spec_walk g 0 a a
| spec_walk_hop (n : nat) (a b c : string) :
    spec_adjacent g a b -> spec_walk g n b c -> spec_walk g (S n) a c.

(** The shortest unweighted undirected path from [a] to [b] has [n] hops. *)
Definition spec_shortest_path (g : Graph) (a b : string) (n : nat) : Prop :=
  spec_walk g n a b /\ forall m, spec_walk g m a b -> (n <= m)%nat.

(** The proximity buckets by path length. *)
Definition spec_proximity_bucket (path_length : Z) : float :=
  match path_length with
  | 1%Z => 1.0
  | 2%Z => 0.7
  | 3%Z => 0.4
  | 4%Z => 0.2
  | _ => 0.1
  end.

(** *** Planetary strength (specification of PlanetaryStrengthEvaluator) *)

Inductive dignity_category : Type :=
| Domicile | Exaltation | Detriment | Fall | Neutral.

Definition spec_dignity (planet sign : string) : dignity_category :=
  match dict_get planet ESSENTIAL_DIGNITIES with
  | Some d =>
      if String.eqb sign (rulership d) then Domicile
      else if String.eqb sign (exaltation d) then Exaltation
      else if String.eqb sign (detriment d) then Detriment
      else if String.eqb sign (fall d) then Fall
      else Neutral
  | None => Neutral
  end.

Definition spec_dignity_multiplier (c : dignity_category) : float :=
  match c with
  | Domicile => 1.5
  | Exaltation => 1.25
  | Detriment => 0.75
  | Fall => 0.5
  | Neutral => 1.0
  end.

(** The five factors [d], [v], [c], [r], [o] of a planet's condition. *)
Definition spec_d (planet : string) (position : Position) : float :=
  spec_dignity_multiplier (spec_dignity planet (default "" (pos_sign position))).

Definition spec_v (position : Position) : float :=
  let altitude := default 0 (pos_altitude position) in
  if 0 <=? altitude then 1 + (altitude / 90) * 0.5 else 0.6.

Definition spec_c (position : Position) : float :=
  if default false (pos_is_cazimi position) then 1.3
  else if default false (pos_is_combust position) then 0.3
  else 1.

Definition spec_r (position : Position) : float :=
  if default false (pos_is_retrograde position) then 0.7 else 1.

Definition spec_o (planet : string) (position : Position) : float :=
  if String.eqb planet "Moon" && default false (pos_is_out_of_bounds position)
  then 0.4 else 1.

Definition spec_raw_authority (planet : string) (position : Position) : float :=
  spec_d planet position * spec_v position * spec_c position
  * spec_r position * spec_o planet position.

Definition spec_authority (planet : string) (position : Position) : float :=
  clamp (spec_raw_authority planet position) 0.1 3.0.

(** *** Temporal relevance (specification of TemporalRelevanceScorer) *)

Definition spec_temporal_base (relationship : Relationship)
  (hour_ruler day_ruler current_weekday : option string) : float :=
  let weekday_target := py_eq (target_type relationship) (Some "Weekday") in
  let same_day := py_eq (target_name relationship) current_weekday in
  if py_eq (source_planet relationship) hour_ruler then
    if weekday_target && negb same_day then 1.8 * 0.3 else 1.8
  else if py_eq (source_planet relationship) day_ruler then
    if weekday_target && same_day then 1.2 * 1.3 else 1.2
  else 0.6.

Definition spec_type_multiplier (rel_type : option string) : float :=
  if py_eq rel_type (Some "HOUR_RULED_BY") then 1.5
  else if py_eq rel_type (Some "DAY_RULED_BY") then 1.0
  else if py_eq rel_type (Some "HAS_ANALOGY_WITH") then 0.8
  else 1.0.

Definition spec_temporal_relevance (relationship : Relationship)
  (hour_ruler day_ruler current_weekday : option string) : float :=
  clamp
    (spec_temporal_base relationship hour_ruler day_ruler current_weekday
     * spec_type_multiplier (relationship_type relationship))
    0.1 2.0.

(** *** Elemental weather (specification of ElementalWeatherAggregator) *)

Definition ELEMENT_AXES : list string :=
  ["Fire"; "Earth"; "Air"; "Water"; "Hot"; "Cold"; "Dry"; "Moist"].

(** A ruler is recognized when it has a table of contributions. *)
Definition recognized (ruler : option string) : bool :=
  match dict_get_opt ruler ruler_elements with
  | Some _ => true
  | None => false
  end.

(** The raw strength of [ruler] on [axis], when it has one. *)
Definition spec_strength (ruler : option string) (axis : string) : option float :=
  match dict_get_opt ruler ruler_elements with
  | Some table => dict_get axis table
  | None => None
  end.

(** The total of one axis: the hour ruler's strength at [1.0] and the day
    ruler's, if it is a recognized planet distinct from the hour ruler, at
    [0.6]. *)
Definition spec_axis_total (hour_ruler day_ruler : option string)
  (axis : string) : float :=
  let hour_part :=
    match spec_strength hour_ruler axis with
    | Some strength => 0.0 + strength * 1.0
    | None => 0.0
    end in
  match spec_strength day_ruler axis with
  | Some strength =>
      if negb (py_eq day_ruler hour_ruler) then hour_part + strength * 0.6
      else hour_part
  | None => hour_part
  end.

Definition spec_totals (hour_ruler day_ruler : option string) : Weather :=
  map (fun axis => (axis, spec_axis_total hour_ruler day_ruler axis))
      ELEMENT_AXES.

(** *** Rank and confidence (specification of CorrespondenceWeightComposer) *)

Definition spec_rank (weight : float) : string :=
  if 2.0 <=? weight then "dominant"
  else if 1.5 <=? weight then "strong"
  else if 1.0 <=? weight then "moderate"
  else if 0.5 <=? weight then "weak"
  else "minimal".

(** [data_completeness]: [1.0], times [0.5] without planetary positions,
    times [0.8] without an hour ruler, times [0.7] without graph data. *)
Definition spec_data_completeness (context : Context) : float :=
  1.0
  * (if truthy_map (planetary_positions context) then 1 else 0.5)
  * (if truthy_str (hour_ruler context) then 1 else 0.8)
  * (if truthy_map (graph_data context) then 1 else 0.7).

(** The same context with another [planetary_positions] entry. *)
Definition with_positions (context : Context)
  (positions : option (gmap string Position)) : Context :=
  {| hour_ruler := hour_ruler context;
     day_ruler := day_ruler context;
     current_weekday := current_weekday context;
     planetary_positions := positions;
     graph_data := graph_data context |}.

(** ** Scenarios

    The contexts and relationships of [test_complex_scenarios], and the
    inputs used as examples below. *)

Definition position_of (sign : string) (altitude : float)
  (is_combust is_retrograde : option bool) : Position :=
  {| pos_sign := Some sign; pos_altitude := Some altitude;
     pos_is_cazimi := None; pos_is_combust := is_combust;
     pos_is_retrograde := is_retrograde; pos_is_out_of_bounds := None |}.

Definition relationship_of (source : option string) (name type : string)
  (rel_type : string) : Relationship :=
  {| source_planet := source;
     target_entity := Some {| ent_name := Some name; ent_type := Some type |};
     target_type := None; target_name := None;
     relationship_type := Some rel_type |}.

Definition context_saturday_mars : Context :=
  {| hour_ruler := Some "Mars";
     day_ruler := Some "Saturn";
     current_weekday := Some "Saturday";
     planetary_positions :=
       Some (<["Mars" := position_of "Aries" 45 (Some false) None]>
             (<["Saturn" := position_of "Capricorn" 60 (Some false) None]> ∅));
     graph_data := None |}.

Definition mars_sachiel : Relationship :=
  relationship_of (Some "Mars") "Sachiel" "Angel" "HOUR_RULED_BY".

Definition mars_tuesday : Relationship :=
  relationship_of (Some "Mars") "Tuesday" "Weekday" "DAY_RULED_BY".

(** A relationship without [source_planet]. *)
Definition sourceless_iron : Relationship :=
  {| source_planet := None;
     target_entity := Some {| ent_name := Some "Iron"; ent_type := Some "Metal" |};
     target_type := None; target_name := None;
     relationship_type := Some "HAS_ANALOGY_WITH" |}.

(** A planet in fall, below the horizon, combust and retrograde. *)
Definition afflicted_mars : Position :=
  position_of "Cancer" (-10) (Some true) (Some true).

(** A graph with the single edge Venus - Copper. *)
Definition venus_copper_graph : Graph := {[ "Venus" := ["Copper"] ]}.

(** Mars in fall and retrograde at altitude 25.5, neither hour nor day
    ruler, towards an entity outside the fixed tables. *)
Definition context_threshold : Context :=
  {| hour_ruler := Some "Sun";
     day_ruler := Some "Moon";
     current_weekday := Some "Monday";
     planetary_positions :=
       Some {[ "Mars" := position_of "Cancer" 25.5 None (Some true) ]};
     graph_data := None |}.

Definition mars_copper : Relationship :=
  relationship_of (Some "Mars") "Copper" "Metal" "OTHER".

(** Mars as hour ruler, in fall, below the horizon and combust. *)
Definition context_weak_mars : Context :=
  {| hour_ruler := Some "Mars";
     day_ruler := Some "Saturn";
     current_weekday := Some "Saturday";
     planetary_positions :=
       Some {[ "Mars" := position_of "Cancer" (-10) (Some true) None ]};
     graph_data := None |}.

Definition mars_iron : Relationship :=
  relationship_of (Some "Mars") "Iron" "Metal" "HOUR_RULED_BY".

(** The sub-scores that [calculate_final_weight] computes. *)
Section SubScores.
Variables (relationship : Relationship) (context : Context)
          (entity : Entity).

Definition graph_subscore : float :=
  calculate_graph_proximity_weight (source_planet relationship)
    (default "" (ent_name entity)) (default ∅ (graph_data context)).

Definition astro_subscore : float :=
  calculate_astrological_authority (source_planet relationship)
    (default ∅ (planetary_positions context)).

Definition temporal_subscore : float :=
  calculate_temporal_relevance relationship (hour_ruler context)
    (day_ruler context) (current_weekday context).

Definition elemental_subscore : float :=
  calculate_elemental_dominance entity
    (calculate_current_elemental_weather
       (default ∅ (planetary_positions context))
       (hour_ruler context) (day_ruler context)).
End SubScores.

(** What the elemental weather of one pair of rulers satisfies: totals as
    specified, then either normalised to a maximum of 1.0 or all zero. *)
Definition weather_statement (positions : gmap string Position)
  (hour day : option string) : Prop :=
  let totals := spec_totals hour day in
  let max_total := py_max_list 1.0 (dict_values totals) in
  let weather := calculate_current_elemental_weather positions hour day in
  elemental_totals hour day = totals
  /\ ((recognized hour || recognized day = true
       /\ (0 <? max_total) = true
       /\ weather = map (fun '(axis, v) => (axis, v / max_total)) totals
       /\ py_max_list 1.0 (dict_values weather) = 1.0)
      \/ (recognized hour || recognized day = false
          /\ totals = initial_weather
          /\ weather = initial_weather)).

(** ** Definitions for the further properties *)

(** The float is a number: not NaN. *)
Definition not_nan (x : float) : Prop := Prim2SF x <> S754_nan.

(** The float is finite and not a zero. *)
Definition finite_nonzero (x : float) : bool :=
  match Prim2SF x with
  | S754_finite _ _ _ => true
  | _ => false
  end.

(** [lo <= x <= hi]. *)
Definition between (lo hi x : float) : bool := (lo <=? x) && (x <=? hi).

(** A position entry without any key: [{}]. *)
Definition empty_position : Position :=
  {| pos_sign := None; pos_altitude := None; pos_is_cazimi := None;
     pos_is_combust := None; pos_is_retrograde := None;
     pos_is_out_of_bounds := None |}.

(** The same position with other [is_combust] and [is_out_of_bounds]. *)
Definition with_combust (position : Position) (flag : option bool) : Position :=
  {| pos_sign := pos_sign position; pos_altitude := pos_altitude position;
     pos_is_cazimi := pos_is_cazimi position; pos_is_combust := flag;
     pos_is_retrograde := pos_is_retrograde position;
     pos_is_out_of_bounds := pos_is_out_of_bounds position |}.

Definition with_out_of_bounds (position : Position) (flag : option bool)
  : Position :=
  {| pos_sign := pos_sign position; pos_altitude := pos_altitude position;
     pos_is_cazimi := pos_is_cazimi position;
     pos_is_combust := pos_is_combust position;
     pos_is_retrograde := pos_is_retrograde position;
     pos_is_out_of_bounds := flag |}.

(** The same relationship with another [source_planet]. *)
Definition with_source (relationship : Relationship) (source : option string)
  : Relationship :=
  {| source_planet := source;
     target_entity := target_entity relationship;
     target_type := target_type relationship;
     target_name := target_name relationship;
     relationship_type := relationship_type relationship |}.

(** The same relationship with another [target_entity]. *)
Definition with_entity (relationship : Relationship) (entity : option Entity)
  : Relationship :=
  {| source_planet := source_planet relationship;
     target_entity := entity;
     target_type := target_type relationship;
     target_name := target_name relationship;
     relationship_type := relationship_type relationship |}.

(** The same context with another [graph_data] entry. *)
Definition with_graph_data (context : Context) (graph : option Graph) : Context :=
  {| hour_ruler := hour_ruler context;
     day_ruler := day_ruler context;
     current_weekday := current_weekday context;
     planetary_positions := planetary_positions context;
     graph_data := graph |}.

(** A ruler as the elemental weather sees it: itself when it has a table,
    absent otherwise. *)
Definition canonical_ruler (ruler : option string) : option string :=
  if recognized ruler then ruler else None.

(** The rulers the elemental weather tells apart. *)
Definition RULERS : list (option string) :=
  None :: map Some ["Sun"; "Moon"; "Mars"; "Venus"; "Mercury"; "Jupiter";
                    "Saturn"].

(** The weather vectors of all pairs of such rulers. *)
Definition all_weathers : list Weather :=
  flat_map
    (fun hour =>
       map (fun day => calculate_current_elemental_weather ∅ hour day) RULERS)
    RULERS.

(** [needle] occurs somewhere in [hay]. *)
Definition occurs_in (needle hay : string) : Prop :=
  exists before after : string,
    hay = String.append before (String.append needle after).

(** The same context with another [current_weekday] entry. *)
Definition with_weekday (context : Context) (weekday : option string) : Context :=
  {| hour_ruler := hour_ruler context;
     day_ruler := day_ruler context;
     current_weekday := weekday;
     planetary_positions := planetary_positions context;
     graph_data := graph_data context |}.

(** The rank labels from the lowest to the highest. *)
Definition rank_level (label : string) : nat :=
  if String.eqb label "dominant" then 4
  else if String.eqb label "strong" then 3
  else if String.eqb label "moderate" then 2
  else if String.eqb label "weak" then 1
  else 0.

(** The same relationship with another [relationship_type]. *)
Definition with_relationship_type (relationship : Relationship)
  (rel_type : option string) : Relationship :=
  {| source_planet := source_planet relationship;
     target_entity := target_entity relationship;
     target_type := target_type relationship;
     target_name := target_name relationship;
     relationship_type := rel_type |}.

(** The entries of a weather whose axis is in the signature of an entity. *)
Definition signature_part (entity : Entity) (weather : Weather) : Weather :=
  List.filter (fun entry => py_in (fst entry) (_get_entity_elements entity))
    weather.

(** [m * 2^52], written as 52 binary shifts. *)
Definition shift52 (m : positive) : positive := Pos.iter xO m 52.

(** * Facts about binary64 arithmetic *)

Section MulOne.
Local Open Scope Z_scope.

Lemma mul_two52 (m : positive) :
  (m * 4503599627370496)%positive = shift52 m.
Proof. rewrite Pos.mul_comm. reflexivity. Qed.

Lemma digits_shift52 (m : positive) :
  Z.pos (digits2_pos (shift52 m)) = Z.pos (digits2_pos m) + 52.
Proof. unfold shift52. cbn [Pos.iter digits2_pos]. lia. Qed.

Lemma shr_shift52 (m : positive) :
  SpecFloat.iter_pos shr_1 52
    {| shr_m := Z.pos (shift52 m); shr_r := false; shr_s := false |}
  = {| shr_m := Z.pos m; shr_r := false; shr_s := false |}.
Proof. reflexivity. Qed.

Variables (m : positive) (e : Z).
Hypothesis canonical : fexp prec emax (Z.pos (digits2_pos m) + e) = e.

Lemma shr_fexp_shift52 :
  shr_fexp prec emax (Z.pos (shift52 m)) (e + -52) loc_Exact
  = ({| shr_m := Z.pos m; shr_r := false; shr_s := false |}, e).
Proof using canonical.
  unfold shr_fexp, Zdigits2. rewrite digits_shift52.
  replace (Z.pos (digits2_pos m) + 52 + (e + -52))
    with (Z.pos (digits2_pos m) + e) by lia.
  rewrite canonical. replace (e - (e + -52)) with 52 by lia.
  unfold shr, shr_record_of_loc. rewrite shr_shift52. f_equal. lia.
Qed.

Lemma shr_fexp_exact :
  shr_fexp prec emax (Z.pos m) e loc_Exact
  = ({| shr_m := Z.pos m; shr_r := false; shr_s := false |}, e).
Proof using canonical.
  unfold shr_fexp, Zdigits2. rewrite canonical, Z.sub_diag. reflexivity.
Qed.
End MulOne.

Lemma SF64mul_one_r (s : bool) (m : positive) (e : Z) :
  bounded prec emax m e = true ->
  SF64mul (S754_finite s m e) (S754_finite false 4503599627370496 (-52))
  = S754_finite s m e.
Proof.
  intros Hb. unfold bounded, canonical_mantissa in Hb.
  apply andb_prop in Hb. destruct Hb as [Hc He]. apply Z.eqb_eq in Hc.
  unfold SF64mul, SFmul. rewrite xorb_false_r, mul_two52.
  unfold binary_round_aux. rewrite (shr_fexp_shift52 m e Hc).
  cbn [shr_m loc_of_shr_record round_nearest_even].
  rewrite (shr_fexp_exact m e Hc). cbn [shr_m]. rewrite He. reflexivity.
Qed.

(** Multiplying a float by [1.0] gives the same float. *)
Lemma float_mul_1_r (x : float) : x * 1 = x.
Proof.
  apply Prim2SF_inj. rewrite mul_spec.
  pose proof (Prim2SF_valid x) as Hv.
  change (Prim2SF 1) with (S754_finite false 4503599627370496 (-52)).
  destruct (Prim2SF x) as [s|s| |s m e];
    try (destruct s; reflexivity); try reflexivity.
  apply SF64mul_one_r. exact Hv.
Qed.

(** Two floats with different specifications are different. *)
Lemma float_neq (x y : float) : Prim2SF x <> Prim2SF y -> x <> y.
Proof. intros H Heq. apply H. rewrite Heq. reflexivity. Qed.

Ltac float_discriminate :=
  apply float_neq; vm_compute; discriminate.

(** * Facts about the built-ins *)

Lemma py_eq_refl (a : option string) : py_eq a a = true.
Proof. destruct a as [s|]; simpl; [apply String.eqb_refl | reflexivity]. Qed.

Lemma py_eq_true (a b : option string) : py_eq a b = true <-> a = b.
Proof.
  destruct a as [x|], b as [y|]; simpl; split; intros H;
    try discriminate; try reflexivity.
  - apply String.eqb_eq in H. congruence.
  - apply String.eqb_eq. congruence.
Qed.

Lemma py_eq_false (a b : option string) : py_eq a b = false <-> a <> b.
Proof.
  split.
  - intros H Hab. apply py_eq_true in Hab. congruence.
  - intros H. destruct (py_eq a b) eqn:E; [|reflexivity].
    apply py_eq_true in E. contradiction.
Qed.

(** * 1. Graph proximity *)

Lemma proximity_is_bucket (source : option string) (target : string) (g : Graph) :
  calculate_graph_proximity_weight source target g
  = spec_proximity_bucket (_find_shortest_path_length source target g).
Proof.
  unfold calculate_graph_proximity_weight, _find_shortest_path_length.
  destruct (py_eq source (Some target)); [reflexivity|].
  destruct (py_in target _); reflexivity.
Qed.

Lemma path_length_self (s : string) (g : Graph) :
  _find_shortest_path_length (Some s) s g = 0%Z.
Proof. unfold _find_shortest_path_length. rewrite py_eq_refl. reflexivity. Qed.

Lemma path_length_other (s t : string) (g : Graph) :
  t <> s ->
  _find_shortest_path_length (Some s) t g = 1%Z
  \/ _find_shortest_path_length (Some s) t g = 3%Z.
Proof.
  intros Hts. unfold _find_shortest_path_length.
  assert (py_eq (Some s) (Some t) = false) as ->
    by (apply py_eq_false; congruence).
  destruct (py_in t _); [left|right]; reflexivity.
Qed.

(** C10: a self-pair has reported path length 0, which is none of the
    buckets for 1 to 4 hops, so [calculate_graph_proximity_weight s s g]
    is the minimum 0.1; every other entity, and in particular every
    directly connected neighbour (reported length 1, weight 1.0), scores
    strictly higher. *)
Theorem C10_self_pair_minimum_bucket :
  forall (s : string) (g : Graph),
    _find_shortest_path_length (Some s) s g = 0%Z
    /\ calculate_graph_proximity_weight (Some s) s g = 0.1
    /\ forall t : string,
         (_find_shortest_path_length (Some s) t g = 1%Z ->
          calculate_graph_proximity_weight (Some s) t g = 1.0
          /\ (calculate_graph_proximity_weight (Some s) s g
              <? calculate_graph_proximity_weight (Some s) t g) = true)
         /\ (t <> s ->
             (calculate_graph_proximity_weight (Some s) s g
              <? calculate_graph_proximity_weight (Some s) t g) = true).
Proof.
  intros s g. split; [apply path_length_self|].
  assert (calculate_graph_proximity_weight (Some s) s g = 0.1) as Hself
    by (rewrite proximity_is_bucket, path_length_self; reflexivity).
  split; [exact Hself|].
  intros t. rewrite Hself. split.
  - intros H1. rewrite proximity_is_bucket, H1. split; reflexivity.
  - intros Hts. rewrite proximity_is_bucket.
    destruct (path_length_other s t g Hts) as [-> | ->]; reflexivity.
Qed.

Lemma C10_witness :
  _find_shortest_path_length (Some "Mars") "Iron" ∅ = 1%Z
  /\ "Iron" <> "Mars"
  /\ calculate_graph_proximity_weight (Some "Mars") "Iron" ∅ = 1.0
  /\ (calculate_graph_proximity_weight (Some "Mars") "Mars" ∅
      <? calculate_graph_proximity_weight (Some "Mars") "Iron" ∅) = true.
Proof.
  split; [reflexivity|]. split; [discriminate|].
  destruct (C10_self_pair_minimum_bucket "Mars" ∅) as [_ [_ H]].
  destruct (H "Iron") as [Hneighbour Hother]. split.
  - apply Hneighbour. reflexivity.
  - apply Hother. discriminate.
Defined.

(** The claim of C3 fails on the placeholder traversal: in the graph
    whose only edge is Venus - Copper the shortest path between the two
    has one hop, and the weight is 0.4, not 1.0. *)
Lemma C3_counterexample :
  spec_shortest_path venus_copper_graph "Venus" "Copper" 1
  /\ calculate_graph_proximity_weight (Some "Venus") "Copper" venus_copper_graph
     = 0.4
  /\ calculate_graph_proximity_weight (Some "Venus") "Copper" venus_copper_graph
     <> spec_proximity_bucket 1.
Proof.
  split; [|split].
  - split.
    + apply spec_walk_hop with (b := "Copper").
      * left. exists ["Copper"]. split; [reflexivity | left; reflexivity].
      * apply spec_walk_here.
    + intros m Hm. destruct m as [|m]; [|lia].
      exfalso. inversion Hm.
  - reflexivity.
  - float_discriminate.
Qed.

(** C3 (amended): the weight is the bucket of the path length that
    [_find_shortest_path_length] reports: 1.0 for 1, 0.7 for 2, 0.4 for 3,
    0.2 for 4 and 0.1 for anything else, strictly decreasing along these
    buckets; the reported length is 0 for a self-pair, 1 when the target is
    in the source's entry of the fixed table of direct connections, and 3
    otherwise, whatever the graph. *)
Theorem C3_proximity_buckets :
  forall (source : option string) (target : string) (g : Graph),
    calculate_graph_proximity_weight source target g
    = spec_proximity_bucket (_find_shortest_path_length source target g)
    /\ _find_shortest_path_length source target g
       = (if py_eq source (Some target) then 0%Z
          else if py_in target (default [] (dict_get_opt source direct_connections))
               then 1%Z else 3%Z)
    /\ (spec_proximity_bucket 1 = 1.0 /\ spec_proximity_bucket 2 = 0.7
        /\ spec_proximity_bucket 3 = 0.4 /\ spec_proximity_bucket 4 = 0.2
        /\ forall n : Z, (n < 1 \/ 4 < n)%Z -> spec_proximity_bucket n = 0.1)
    /\ (spec_proximity_bucket 2 <? spec_proximity_bucket 1) = true
    /\ (spec_proximity_bucket 3 <? spec_proximity_bucket 2) = true
    /\ (spec_proximity_bucket 4 <? spec_proximity_bucket 3) = true
    /\ (0.1 <? spec_proximity_bucket 4) = true.
Proof.
  intros source target g.
  split; [apply proximity_is_bucket|].
  split; [reflexivity|].
  split; [|repeat split; reflexivity].
  repeat split; try reflexivity.
  intros n Hn. unfold spec_proximity_bucket.
  destruct n as [|p|p]; try reflexivity.
  destruct p as [[[|[]|]|[|[]|]|]|[[|[]|]|[|[]|]|]|]; try reflexivity; lia.
Qed.

Lemma C3_witness :
  spec_proximity_bucket 7 = 0.1
  /\ calculate_graph_proximity_weight (Some "Sun") "Gold" venus_copper_graph = 1.0.
Proof.
  destruct (C3_proximity_buckets (Some "Sun") "Gold" venus_copper_graph)
    as [Hw [_ [[_ [_ [_ [_ Hfar]]]] _]]].
  split.
  - apply Hfar. right. lia.
  - rewrite Hw. reflexivity.
Defined.

(** * 2. Astrological authority *)

Lemma dignity_multiplier_is_spec (planet sign : string) :
  _get_dignity_multiplier planet sign
  = spec_dignity_multiplier (spec_dignity planet sign).
Proof.
  unfold _get_dignity_multiplier, spec_dignity.
  destruct (dict_get planet ESSENTIAL_DIGNITIES) as [d|]; simpl; [|reflexivity].
  destruct (String.eqb sign (rulership d)); [reflexivity|].
  destruct (String.eqb sign (exaltation d)); [reflexivity|].
  destruct (String.eqb sign (detriment d)); [reflexivity|].
  destruct (String.eqb sign (fall d)); reflexivity.
Qed.

Lemma one_mul_dignity (c : dignity_category) :
  1.0 * spec_dignity_multiplier c = spec_dignity_multiplier c.
Proof. destruct c; reflexivity. Qed.

Lemma authority_is_spec (planet : string) (positions : gmap string Position)
  (position : Position) :
  positions !! planet = Some position ->
  calculate_astrological_authority (Some planet) positions
  = spec_authority planet position.
Proof.
  intros Hlookup. unfold calculate_astrological_authority. rewrite Hlookup.
  unfold spec_authority, spec_raw_authority, spec_d, spec_v, spec_c, spec_r,
    spec_o.
  cbv zeta. rewrite dignity_multiplier_is_spec, one_mul_dignity.
  destruct (default false (pos_is_cazimi position));
    destruct (default false (pos_is_combust position));
    destruct (default false (pos_is_retrograde position));
    destruct (String.eqb planet "Moon"
              && default false (pos_is_out_of_bounds position));
    rewrite ?float_mul_1_r; reflexivity.
Qed.

Lemma authority_missing (planet : option string) :
  calculate_astrological_authority planet ∅ = 0.5.
Proof.
  unfold calculate_astrological_authority.
  destruct planet as [p|]; [|reflexivity].
  rewrite lookup_empty. reflexivity.
Qed.

(** C2: for a planet present in the positions map the authority is
    [clamp (d * v * c * r * o) 0.1 3.0] with the five factors of the
    specification; a planet in fall, below the horizon, combust and
    retrograde has raw product 0.063 and authority 0.1, the floor. *)
Theorem C2_authority_formula :
  forall (planet : string) (positions : gmap string Position)
         (position : Position),
    positions !! planet = Some position ->
    calculate_astrological_authority (Some planet) positions
    = clamp (spec_d planet position * spec_v position * spec_c position
             * spec_r position * spec_o planet position) 0.1 3.0
    /\ (spec_dignity planet (default "" (pos_sign position)) = Fall ->
        (0 <=? default 0 (pos_altitude position)) = false ->
        default false (pos_is_cazimi position) = false ->
        default false (pos_is_combust position) = true ->
        default false (pos_is_retrograde position) = true ->
        spec_d planet position = 0.5 /\ spec_v position = 0.6
        /\ spec_c position = 0.3 /\ spec_r position = 0.7
        /\ 0.5 * 0.6 * 0.3 * 0.7 = 0.063
        /\ (spec_o planet position = 1 ->
            spec_raw_authority planet position = 0.063)
        /\ calculate_astrological_authority (Some planet) positions = 0.1).
Proof.
  intros planet positions position Hlookup.
  split; [apply (authority_is_spec _ _ _ Hlookup)|].
  intros Hfall Hbelow Hcazimi Hcombust Hretro.
  assert (spec_d planet position = 0.5) as Hd
    by (unfold spec_d; rewrite Hfall; reflexivity).
  assert (spec_v position = 0.6) as Hv
    by (unfold spec_v; cbv zeta; rewrite Hbelow; reflexivity).
  assert (spec_c position = 0.3) as Hc
    by (unfold spec_c; rewrite Hcazimi, Hcombust; reflexivity).
  assert (spec_r position = 0.7) as Hr
    by (unfold spec_r; rewrite Hretro; reflexivity).
  repeat split; try assumption; try reflexivity.
  - intros Ho. unfold spec_raw_authority. rewrite Hd, Hv, Hc, Hr, Ho.
    reflexivity.
  - rewrite (authority_is_spec _ _ _ Hlookup).
    unfold spec_authority, spec_raw_authority. rewrite Hd, Hv, Hc, Hr.
    unfold spec_o.
    destruct (String.eqb planet "Moon"
              && default false (pos_is_out_of_bounds position));
      reflexivity.
Qed.

Lemma C2_witness :
  ({[ "Mars" := afflicted_mars ]} : gmap string Position) !! "Mars"
  = Some afflicted_mars
  /\ spec_raw_authority "Mars" afflicted_mars = 0.063
  /\ calculate_astrological_authority (Some "Mars") {[ "Mars" := afflicted_mars ]}
     = 0.1.
Proof.
  assert (({[ "Mars" := afflicted_mars ]} : gmap string Position) !! "Mars"
          = Some afflicted_mars) as Hlookup by reflexivity.
  split; [exact Hlookup|].
  destruct (C2_authority_formula "Mars" _ afflicted_mars Hlookup) as [_ H].
  destruct H as (_ & _ & _ & _ & _ & Hraw & Hfloor); try reflexivity.
  split; [apply Hraw; reflexivity | exact Hfloor].
Defined.

(** * 3. Temporal relevance *)

(** C4: the temporal relevance is [clamp (base * m) 0.1 2.0] with the base
    chosen by the role of the source planet (hour ruler, day ruler or
    neither, with the weekday penalty or bonus) and [m] the multiplier of
    the relationship type, 1.0 for an unrecognized one. *)
Theorem C4_temporal_relevance_formula :
  forall (relationship : Relationship)
         (hour_ruler day_ruler current_weekday : option string),
    calculate_temporal_relevance relationship hour_ruler day_ruler
      current_weekday
    = clamp
        (spec_temporal_base relationship hour_ruler day_ruler current_weekday
         * spec_type_multiplier (relationship_type relationship))
        0.1 2.0.
Proof.
  intros relationship hour day weekday.
  unfold calculate_temporal_relevance, spec_temporal_base,
    spec_type_multiplier.
  cbv zeta.
  repeat match goal with
         | |- context [py_eq ?a ?b] => destruct (py_eq a b)
         end;
    reflexivity.
Qed.

(** * 4. Elemental weather *)

Lemma ruler_cases (ruler : option string) :
  dict_get_opt ruler ruler_elements = None
  \/ In ruler (map Some ["Sun"; "Moon"; "Mars"; "Venus"; "Mercury";
                         "Jupiter"; "Saturn"]).
Proof.
  destruct ruler as [s|]; [|left; reflexivity].
  unfold dict_get_opt, ruler_elements, dict_get.
  repeat match goal with
         | |- context [String.eqb s ?name] =>
             destruct (String.eqb_spec s name) as [->|_];
             [right; simpl; tauto|]
         end.
  left. reflexivity.
Qed.

Lemma unrecognized_neq (hour day : option string) :
  dict_get_opt hour ruler_elements = None ->
  recognized day = true ->
  py_eq day hour = false.
Proof.
  intros Hhour Hday. apply py_eq_false. intros ->.
  unfold recognized in Hday. rewrite Hhour in Hday. discriminate.
Qed.

(** Every axis named by a table of [ruler_elements] is a key of the
    initial weather, so the in-place additions never miss their key. *)
Lemma table_axes_known :
  forallb
    (fun entry =>
       forallb (fun contribution => py_in (fst contribution) ELEMENT_AXES)
               (snd entry))
    ruler_elements = true
  /\ map fst initial_weather = ELEMENT_AXES.
Proof. split; reflexivity. Qed.

Ltac unfold_weather :=
  unfold weather_statement, calculate_current_elemental_weather,
    elemental_totals, spec_totals, spec_axis_total, spec_strength, recognized;
  cbv zeta.

Ltac close_weather :=
  vm_compute;
  split; [reflexivity|];
  first [ left; repeat split; reflexivity
        | right; repeat split; reflexivity ].

Lemma weather_statement_holds (positions : gmap string Position)
  (hour day : option string) :
  weather_statement positions hour day.
Proof.
  destruct (ruler_cases hour) as [Hhour | Hhour];
    destruct (ruler_cases day) as [Hday | Hday].
  - unfold_weather. rewrite Hhour, Hday. close_weather.
  - simpl in Hday.
    repeat (destruct Hday as [<- | Hday];
            [match goal with
             | |- weather_statement _ _ ?d =>
                 pose proof (unrecognized_neq hour d Hhour eq_refl) as Hne
             end;
             unfold_weather; rewrite Hhour, Hne; close_weather|]).
    contradiction.
  - simpl in Hhour.
    repeat (destruct Hhour as [<- | Hhour];
            [unfold_weather; rewrite Hday; close_weather|]).
    contradiction.
  - simpl in Hhour, Hday.
    repeat (destruct Hhour as [<- | Hhour];
            [repeat (destruct Hday as [<- | Hday];
                     [unfold_weather; close_weather|]);
             contradiction|]).
    contradiction.
Qed.

(** C5: the axis totals are the hour ruler's table at 1.0 plus, for a
    recognized day ruler distinct from the hour ruler, its table at 0.6;
    when some ruler is recognized every axis is divided by the maximum
    total and the dominant axis is exactly 1.0; when none is, the all-zero
    vector is returned unchanged.  With hour ruler Mars and day ruler
    Saturn the maximum total is Dry = 0.7 + 0.48 = 1.18, normalised to
    1.0. *)
Theorem C5_elemental_weather :
  (forall (positions : gmap string Position) (hour day : option string),
      let totals := spec_totals hour day in
      let max_total := py_max_list 1.0 (dict_values totals) in
      let weather := calculate_current_elemental_weather positions hour day in
      elemental_totals hour day = totals
      /\ ((recognized hour || recognized day = true
           /\ (0 <? max_total) = true
           /\ weather = map (fun '(axis, v) => (axis, v / max_total)) totals
           /\ py_max_list 1.0 (dict_values weather) = 1.0)
          \/ (recognized hour || recognized day = false
              /\ totals = initial_weather
              /\ weather = initial_weather)))
  /\ (forall positions : gmap string Position,
         let totals := elemental_totals (Some "Mars") (Some "Saturn") in
         let weather :=
           calculate_current_elemental_weather positions (Some "Mars")
             (Some "Saturn") in
         0.8 * 0.6 = 0.48
         /\ 0.7 + 0.48 = 1.18
         /\ dict_get "Dry" totals = Some 1.18
         /\ py_max_list 1.0 (dict_values totals) = 1.18
         /\ dict_get "Dry" weather = Some 1.0
         /\ weather = map (fun '(axis, v) => (axis, v / 1.18)) totals).
Proof.
  split.
  - intros positions hour day. exact (weather_statement_holds positions hour day).
  - intros positions. vm_compute. repeat split; reflexivity.
Qed.

(** * 5. Master weighting function *)

Lemma confidence_is_spec (weight : float) (context : Context) :
  _calculate_confidence weight context
  = py_round (spec_data_completeness context * py_min (weight / 2.0) 1.0) 3.
Proof.
  unfold _calculate_confidence, spec_data_completeness. cbv zeta.
  destruct (truthy_map (planetary_positions context));
    destruct (truthy_str (hour_ruler context));
    destruct (truthy_map (graph_data context)); cbn [negb];
    match goal with
    | |- py_round (?a * ?x) 3 = py_round (?b * ?x) 3 =>
        replace a with b by reflexivity
    end; reflexivity.
Qed.

Lemma completeness_halved (context : Context) (full : gmap string Position) :
  truthy_map (Some full) = true ->
  spec_data_completeness (with_positions context (Some ∅))
  = 0.5 * spec_data_completeness (with_positions context (Some full)).
Proof.
  intros Hfull. unfold spec_data_completeness, with_positions.
  cbn [planetary_positions hour_ruler graph_data]. rewrite Hfull.
  assert (truthy_map (Some (∅ : gmap string Position)) = false) as ->
    by reflexivity.
  destruct (truthy_str (hour_ruler context));
    destruct (truthy_map (graph_data context)); reflexivity.
Qed.

(** C1: with the default coefficients the [final_weight] of the result is
    the sum of the four sub-scores times 0.3, 0.4, 0.2 and 0.1, rounded to
    3 decimals. *)
Theorem C1_final_weight_formula :
  forall (relationship : Relationship) (context : Context) (entity : Entity),
    target_entity relationship = Some entity ->
    exists result,
      calculate_final_weight init relationship context = Returns result
      /\ final_weight result
         = py_round (graph_subscore relationship context entity * 0.3
                     + astro_subscore relationship context * 0.4
                     + temporal_subscore relationship context * 0.2
                     + elemental_subscore context entity * 0.1) 3.
Proof.
  intros relationship context entity Hentity.
  unfold calculate_final_weight. rewrite Hentity.
  eexists. split; reflexivity.
Qed.

Lemma C1_witness :
  exists result,
    calculate_final_weight init mars_sachiel context_saturday_mars
    = Returns result
    /\ final_weight result = 1.55.
Proof.
  destruct (C1_final_weight_formula mars_sachiel context_saturday_mars
              {| ent_name := Some "Sachiel"; ent_type := Some "Angel" |}
              eq_refl) as [result [Hres Hweight]].
  exists result. split; [exact Hres|]. rewrite Hweight. reflexivity.
Defined.

(** The claim of C6 fails on the code: the rank is taken from the weight
    before rounding.  Here the weighted sum is just below 0.5: it rounds
    to a [final_weight] of 0.5, whose threshold rank is "weak", and the
    rank returned is "minimal". *)
Lemma C6_counterexample :
  exists result,
    calculate_final_weight init mars_copper context_threshold = Returns result
    /\ final_weight result = 0.5
    /\ spec_rank (final_weight result) = "weak"
    /\ rank result = "minimal".
Proof.
  eexists. split; [reflexivity|].
  vm_compute. repeat split; reflexivity.
Qed.

(** C6 (amended): the rank is given by the fixed thresholds 2.0, 1.5, 1.0
    and 0.5 applied to the weighted sum before it is rounded, whatever the
    configured coefficients; [final_weight] is that sum rounded to 3
    decimals. *)
Theorem C6_rank_thresholds :
  forall (self : GraphWeightingEngine) (relationship : Relationship)
         (context : Context) (entity : Entity),
    target_entity relationship = Some entity ->
    let weight :=
      combine self (graph_subscore relationship context entity)
        (astro_subscore relationship context)
        (temporal_subscore relationship context)
        (elemental_subscore context entity) in
    exists result,
      calculate_final_weight self relationship context = Returns result
      /\ final_weight result = py_round weight 3
      /\ rank result
         = (if 2.0 <=? weight then "dominant"
            else if 1.5 <=? weight then "strong"
            else if 1.0 <=? weight then "moderate"
            else if 0.5 <=? weight then "weak"
            else "minimal").
Proof.
  intros self relationship context entity Hentity weight.
  unfold calculate_final_weight. rewrite Hentity.
  eexists. split; [reflexivity|]. split; reflexivity.
Qed.

Lemma C6_witness :
  exists result,
    calculate_final_weight init mars_sachiel context_saturday_mars
    = Returns result
    /\ final_weight result = 1.55
    /\ rank result = "strong".
Proof.
  destruct (C6_rank_thresholds init mars_sachiel context_saturday_mars
              {| ent_name := Some "Sachiel"; ent_type := Some "Angel" |}
              eq_refl) as [result [Hres [Hweight Hrank]]].
  exists result. split; [exact Hres|].
  rewrite Hweight, Hrank. split; reflexivity.
Defined.

(** C7 (the code at the failing input): "Mars -> Tuesday" of
    [test_complex_scenarios] has the hour ruler as source and a Weekday
    target entity other than the current weekday, and the temporal
    sub-score of the breakdown is 1.8, above the penalised
    [clamp (1.8 * 0.3 * 1.0) 0.1 2.0]: [calculate_temporal_relevance]
    reads the keys [target_type] and [target_name] of the relationship,
    which are absent, not the type and name of [target_entity]. *)
Theorem C7_weekday_penalty_not_applied :
  exists result entity,
    calculate_final_weight init mars_tuesday context_saturday_mars
    = Returns result
    /\ target_entity mars_tuesday = Some entity
    /\ source_planet mars_tuesday = hour_ruler context_saturday_mars
    /\ ent_type entity = Some "Weekday"
    /\ ent_name entity <> current_weekday context_saturday_mars
    /\ bd_temporal_relevance (breakdown result) = 1.8
    /\ clamp (1.8 * 0.3
              * spec_type_multiplier (relationship_type mars_tuesday)) 0.1 2.0
       = 0.54.
Proof.
  eexists. eexists. split; [reflexivity|].
  split; [reflexivity|]. split; [reflexivity|]. split; [reflexivity|].
  split; [discriminate|]. split; reflexivity.
Qed.

(** The claim of C8 fails on the code: with Mars weak in the full context
    (authority 0.1) the empty map raises the astrological sub-score to
    0.5 and with it the weight, so the confidence goes from 0.311 to
    0.184: more than half of 0.311, and less than 0.5 below it. *)
Lemma C8_counterexample :
  exists full empty,
    calculate_final_weight init mars_iron context_weak_mars = Returns full
    /\ calculate_final_weight init mars_iron
         (with_positions context_weak_mars (Some ∅)) = Returns empty
    /\ confidence full = 0.311
    /\ confidence empty = 0.184
    /\ (confidence empty <=? 0.5 * confidence full) = false
    /\ (0.5 <=? confidence full - confidence empty) = false.
Proof.
  eexists. eexists. split; [reflexivity|]. split; [reflexivity|].
  vm_compute. repeat split; reflexivity.
Qed.

(** C8 (amended): with an empty positions map and a target entity the call
    returns; the astrological sub-score is the default 0.5; the confidence
    is [data_completeness * weight_stability] rounded to 3 decimals, where
    [data_completeness] is exactly half that of the same context with a
    non-empty positions map and [weight_stability] is computed from the
    weight of this call. *)
Theorem C8_empty_positions :
  forall (self : GraphWeightingEngine) (relationship : Relationship)
         (context : Context) (entity : Entity) (full : gmap string Position),
    target_entity relationship = Some entity ->
    planetary_positions context = Some ∅ ->
    truthy_map (Some full) = true ->
    let weight :=
      combine self (graph_subscore relationship context entity) 0.5
        (temporal_subscore relationship context)
        (elemental_subscore context entity) in
    exists result,
      calculate_final_weight self relationship context = Returns result
      /\ (forall planet, calculate_astrological_authority planet ∅ = 0.5)
      /\ bd_astrological_authority (breakdown result) = 0.5
      /\ spec_data_completeness context
         = 0.5 * spec_data_completeness (with_positions context (Some full))
      /\ confidence result
         = py_round (spec_data_completeness context
                     * py_min (weight / 2.0) 1.0) 3.
Proof.
  intros self relationship context entity full Hentity Hempty Hfull weight.
  unfold calculate_final_weight. rewrite Hentity.
  eexists. split; [reflexivity|].
  split; [apply authority_missing|].
  cbn [breakdown bd_astrological_authority confidence].
  rewrite confidence_is_spec.
  replace (spec_data_completeness context)
    with (spec_data_completeness (with_positions context (Some ∅)))
    by (unfold spec_data_completeness, with_positions;
        cbn [planetary_positions hour_ruler graph_data];
        rewrite Hempty; reflexivity).
  split; [|split].
  - rewrite Hempty. cbn [default]. rewrite authority_missing. reflexivity.
  - apply completeness_halved. exact Hfull.
  - subst weight. unfold astro_subscore, graph_subscore, temporal_subscore,
      elemental_subscore.
    rewrite Hempty. cbn [default].
    rewrite authority_missing. reflexivity.
Qed.

Lemma C8_witness :
  exists result,
    calculate_final_weight init mars_iron
      (with_positions context_weak_mars (Some ∅)) = Returns result
    /\ bd_astrological_authority (breakdown result) = 0.5
    /\ confidence result = 0.184.
Proof.
  assert (truthy_map (Some ({[ "Mars" := afflicted_mars ]}
                            : gmap string Position)) = true) as Hfull
    by (vm_compute; reflexivity).
  destruct (C8_empty_positions init mars_iron
              (with_positions context_weak_mars (Some ∅))
              {| ent_name := Some "Iron"; ent_type := Some "Metal" |}
              {[ "Mars" := afflicted_mars ]}
              eq_refl eq_refl Hfull)
    as [result [Hres [_ [Hastro [_ Hconf]]]]].
  exists result. split; [exact Hres|]. split; [exact Hastro|].
  rewrite Hconf. reflexivity.
Defined.

(** The claim of C9 fails on the code: a relationship without a source
    planet gets a result, not an error. *)
Lemma C9_counterexample :
  source_planet sourceless_iron = None
  /\ exists result,
       calculate_final_weight init sourceless_iron context_saturday_mars
       = Returns result.
Proof. split; [reflexivity|]. eexists. reflexivity. Qed.

(** C9 (amended): a relationship without a source planet that has a target
    entity gets a result, computed with the absent source defaulted: the
    graph proximity is that of an unlisted pair, 0.4, and the astrological
    authority that of a planet without position, 0.5. *)
Theorem C9_missing_source_defaults :
  forall (self : GraphWeightingEngine) (relationship : Relationship)
         (context : Context) (entity : Entity),
    source_planet relationship = None ->
    target_entity relationship = Some entity ->
    exists result,
      calculate_final_weight self relationship context = Returns result
      /\ bd_graph_proximity (breakdown result) = 0.4
      /\ bd_astrological_authority (breakdown result) = 0.5.
Proof.
  intros self relationship context entity Hsource Hentity.
  unfold calculate_final_weight. rewrite Hentity, Hsource.
  eexists. split; [reflexivity|].
  cbn [breakdown bd_graph_proximity bd_astrological_authority].
  split; reflexivity.
Qed.

Lemma C9_witness :
  exists result,
    calculate_final_weight init sourceless_iron context_saturday_mars
    = Returns result
    /\ bd_graph_proximity (breakdown result) = 0.4
    /\ bd_astrological_authority (breakdown result) = 0.5.
Proof.
  exact (C9_missing_source_defaults init sourceless_iron context_saturday_mars
           {| ent_name := Some "Iron"; ent_type := Some "Metal" |}
           eq_refl eq_refl).
Defined.

(** * Further facts about binary64 arithmetic *)

Section NotNan.
Local Open Scope Z_scope.

Lemma shr_1_nonneg (mrs : shr_record) :
  0 <= shr_m mrs -> 0 <= shr_m (shr_1 mrs).
Proof.
  destruct mrs as [m r s]. destruct m as [|p|p]; simpl; intros H;
    [lia | destruct p; simpl; lia | lia].
Qed.

Lemma iter_shr_1_nonneg (p : positive) :
  forall mrs, 0 <= shr_m mrs -> 0 <= shr_m (SpecFloat.iter_pos shr_1 p mrs).
Proof.
  induction p as [p IH|p IH|]; intros mrs H; simpl.
  - apply IH, IH, shr_1_nonneg, H.
  - apply IH, IH, H.
  - apply shr_1_nonneg, H.
Qed.

Lemma shr_fexp_nonneg (m e : Z) (l : location) :
  0 <= m -> 0 <= shr_m (fst (shr_fexp prec emax m e l)).
Proof.
  intros H. unfold shr_fexp, shr.
  assert (0 <= shr_m (shr_record_of_loc m l)) as H0
    by (destruct l as [|[]]; exact H).
  destruct (fexp prec emax (Zdigits2 m + e) - e); simpl;
    [exact H0 | apply iter_shr_1_nonneg, H0 | exact H0].
Qed.

Lemma round_nearest_even_nonneg (m : Z) (l : location) :
  0 <= m -> 0 <= round_nearest_even m l.
Proof.
  intros H. destruct l as [|[]]; simpl; try lia.
  destruct (Z.even m); lia.
Qed.

(** Rounding a non-negative mantissa never gives NaN. *)
Lemma binary_round_aux_not_nan (s : bool) (m e : Z) (l : location) :
  0 <= m -> binary_round_aux prec emax s m e l <> S754_nan.
Proof.
  intros H. unfold binary_round_aux.
  pose proof (shr_fexp_nonneg m e l H) as H1.
  destruct (shr_fexp prec emax m e l) as [mrs1 e1]. simpl in H1.
  pose proof (shr_fexp_nonneg
                (round_nearest_even (shr_m mrs1) (loc_of_shr_record mrs1))
                e1 loc_Exact (round_nearest_even_nonneg _ _ H1)) as H2.
  destruct (shr_fexp prec emax _ e1 loc_Exact) as [mrs2 e2]. simpl in H2.
  destruct (shr_m mrs2) as [|p|p]; [discriminate | | lia].
  destruct (e2 <=? emax - prec); discriminate.
Qed.

Lemma binary_round_not_nan (s : bool) (m : positive) (e : Z) :
  binary_round prec emax s m e <> S754_nan.
Proof.
  unfold binary_round.
  destruct (shl_align m e _) as [mz ez].
  apply binary_round_aux_not_nan. lia.
Qed.

Lemma SFmul_finite_r (x : spec_float) (s : bool) (m : positive) (e : Z) :
  x <> S754_nan -> SFmul prec emax x (S754_finite s m e) <> S754_nan.
Proof.
  intros H. destruct x as [sx|sx| |sx mx ex]; simpl; try discriminate;
    [contradiction|].
  apply binary_round_aux_not_nan. lia.
Qed.

Lemma SFmul_finite_l (y : spec_float) (s : bool) (m : positive) (e : Z) :
  y <> S754_nan -> SFmul prec emax (S754_finite s m e) y <> S754_nan.
Proof.
  intros H. destruct y as [sy|sy| |sy my ey]; simpl; try discriminate;
    [contradiction|].
  apply binary_round_aux_not_nan. lia.
Qed.

Lemma SFdiv_finite_r (x : spec_float) (s : bool) (m : positive) (e : Z) :
  x <> S754_nan -> SFdiv prec emax x (S754_finite s m e) <> S754_nan.
Proof.
  intros H. destruct x as [sx|sx| |sx mx ex]; simpl; try discriminate;
    [contradiction|].
  unfold SFdiv_core_binary.
  match goal with
  | |- context [Z.div_eucl ?a ?b] =>
      pose proof (Z.div_pos a b) as Hq;
      assert (a / b = fst (Z.div_eucl a b)) as Hdiv
        by (unfold Z.div; destruct (Z.div_eucl a b); reflexivity);
      assert (0 <= a) as Ha;
      [|destruct (Z.div_eucl a b) as [q r]; simpl in Hdiv; subst q;
        apply binary_round_aux_not_nan; apply Hq; [exact Ha | lia]]
  end.
  match goal with
  | |- 0 <= match ?sh with _ => _ end =>
      destruct sh as [|p|p]; [lia | apply Z.shiftl_nonneg; lia | lia]
  end.
Qed.

Lemma SFadd_finite_l (y : spec_float) (s : bool) (m : positive) (e : Z) :
  y <> S754_nan -> SFadd prec emax (S754_finite s m e) y <> S754_nan.
Proof.
  intros H. destruct y as [sy|sy| |sy my ey]; simpl; try discriminate;
    [contradiction|].
  unfold binary_normalize.
  match goal with
  | |- match ?sum with _ => _ end <> _ =>
      destruct sum; [discriminate | apply binary_round_not_nan ..]
  end.
Qed.

Lemma SFcompare_antisym (a b : spec_float) :
  SFcompare b a = option_map CompOpp (SFcompare a b).
Proof.
  destruct a as [sa|sa| |sa ma ea], b as [sb|sb| |sb mb eb]; simpl;
    try reflexivity;
    try (destruct sa; reflexivity); try (destruct sb; reflexivity);
    try (destruct sa, sb; reflexivity).
  destruct sa, sb; try reflexivity;
    rewrite (Z.compare_antisym ea eb);
    destruct (ea ?= eb); simpl; try reflexivity;
    pose proof (Pos.compare_cont_antisym ma mb Eq) as Hm; simpl in Hm;
    rewrite <- Hm; destruct (Pos.compare_cont Eq ma mb); reflexivity.
Qed.

Lemma SFcompare_numbers (a b : spec_float) :
  a <> S754_nan -> b <> S754_nan -> SFcompare a b <> None.
Proof.
  intros Ha Hb.
  destruct a as [sa|sa| |sa ma ea], b as [sb|sb| |sb mb eb]; simpl;
    try discriminate; try contradiction.
Qed.
End NotNan.

Lemma mul_not_nan_r (x y : float) :
  finite_nonzero y = true -> not_nan x -> not_nan (x * y).
Proof.
  unfold finite_nonzero, not_nan. intros Hy Hx. rewrite mul_spec.
  destruct (Prim2SF y) as [| | |s m e]; try discriminate.
  apply SFmul_finite_r, Hx.
Qed.

Lemma mul_not_nan_l (x y : float) :
  finite_nonzero x = true -> not_nan y -> not_nan (x * y).
Proof.
  unfold finite_nonzero, not_nan. intros Hx Hy. rewrite mul_spec.
  destruct (Prim2SF x) as [| | |s m e]; try discriminate.
  apply SFmul_finite_l, Hy.
Qed.

Lemma div_not_nan_r (x y : float) :
  finite_nonzero y = true -> not_nan x -> not_nan (x / y).
Proof.
  unfold finite_nonzero, not_nan. intros Hy Hx. rewrite div_spec.
  destruct (Prim2SF y) as [| | |s m e]; try discriminate.
  apply SFdiv_finite_r, Hx.
Qed.

Lemma add_not_nan_l (x y : float) :
  finite_nonzero x = true -> not_nan y -> not_nan (x + y).
Proof.
  unfold finite_nonzero, not_nan. intros Hx Hy. rewrite add_spec.
  destruct (Prim2SF x) as [| | |s m e]; try discriminate.
  apply SFadd_finite_l, Hy.
Qed.

(** A float that compares is not NaN. *)
Lemma leb_not_nan_r (x y : float) : (x <=? y) = true -> not_nan y.
Proof.
  unfold not_nan. rewrite leb_spec. intros H Hy. rewrite Hy in H.
  unfold SFleb in H. destruct (Prim2SF x); discriminate.
Qed.

(** The order of numbers is total: what is not below is above or equal. *)
Lemma not_ltb_leb (x y : float) :
  not_nan x -> not_nan y -> (x <? y) = false -> (y <=? x) = true.
Proof.
  unfold not_nan. rewrite ltb_spec, leb_spec. intros Hx Hy.
  unfold SFltb, SFleb. rewrite (SFcompare_antisym (Prim2SF x) (Prim2SF y)).
  pose proof (SFcompare_numbers _ _ Hx Hy) as Hc.
  destruct (SFcompare (Prim2SF x) (Prim2SF y)) as [[| |]|]; simpl;
    try reflexivity; try discriminate. contradiction.
Qed.

(** A number clamped between two ordered numbers lies between them. *)
Lemma clamp_between (x lo hi : float) :
  not_nan x -> between lo hi lo = true -> between lo hi hi = true ->
  (hi <? lo) = false ->
  between lo hi (clamp x lo hi) = true.
Proof.
  intros Hx Hlo Hhi Horder. unfold clamp, py_max, py_min.
  assert (not_nan lo) as Hnlo
    by (apply andb_prop in Hlo; destruct Hlo as [H _];
        exact (leb_not_nan_r _ _ H)).
  assert (not_nan hi) as Hnhi
    by (apply andb_prop in Hhi; destruct Hhi as [H _];
        exact (leb_not_nan_r _ _ H)).
  destruct (hi <? x) eqn:Hup.
  - rewrite Horder. exact Hhi.
  - destruct (x <? lo) eqn:Hdown; [exact Hlo|].
    unfold between. rewrite (not_ltb_leb x lo Hx Hnlo Hdown).
    rewrite (not_ltb_leb hi x Hnhi Hx Hup). reflexivity.
Qed.

(** * Further properties of the astrological authority *)

Lemma number_is_number (x : float) : finite_nonzero x = true -> not_nan x.
Proof.
  unfold finite_nonzero, not_nan. intros H Hx. rewrite Hx in H. discriminate.
Qed.

Lemma visibility_not_nan (altitude : float) :
  not_nan (if 0 <=? altitude then 1.0 + (altitude / 90) * 0.5 else 0.6).
Proof.
  destruct (0 <=? altitude) eqn:Habove.
  - apply add_not_nan_l; [reflexivity|].
    apply mul_not_nan_r; [reflexivity|].
    apply div_not_nan_r; [reflexivity|].
    exact (leb_not_nan_r _ _ Habove).
  - apply number_is_number. reflexivity.
Qed.

(** X1: the authority is a number between 0.1 and 3.0 for every planet and
    every positions map, whatever the altitude (infinite and NaN
    included). *)
Theorem X1_authority_in_range :
  forall (planet : option string) (positions : gmap string Position),
    between 0.1 3.0 (calculate_astrological_authority planet positions) = true.
Proof.
  intros planet positions. unfold calculate_astrological_authority.
  destruct planet as [p|]; [|reflexivity].
  destruct (positions !! p) as [position|]; [|reflexivity].
  cbv zeta. apply clamp_between; try reflexivity.
  rewrite dignity_multiplier_is_spec, one_mul_dignity.
  assert (not_nan
            (spec_dignity_multiplier
               (spec_dignity p (default "" (pos_sign position)))
             * (if 0 <=? default 0 (pos_altitude position)
                then 1.0 + default 0 (pos_altitude position) / 90 * 0.5
                else 0.6))) as Hbase.
  { apply mul_not_nan_l; [|apply visibility_not_nan].
    destruct (spec_dignity p _); reflexivity. }
  destruct (default false (pos_is_cazimi position));
    destruct (default false (pos_is_combust position));
    destruct (default false (pos_is_retrograde position));
    destruct (String.eqb p "Moon"
              && default false (pos_is_out_of_bounds position));
    repeat (apply mul_not_nan_r; [reflexivity|]); exact Hbase.
Qed.

(** X2: the authority of a planet depends on its own entry only: adding,
    replacing or deleting the entry of another planet does not change it. *)
Theorem X2_authority_local :
  forall (planet other : string) (position : Position)
         (positions : gmap string Position),
    other <> planet ->
    calculate_astrological_authority (Some planet)
      (<[other := position]> positions)
    = calculate_astrological_authority (Some planet) positions
    /\ calculate_astrological_authority (Some planet) (delete other positions)
       = calculate_astrological_authority (Some planet) positions.
Proof.
  intros planet other position positions Hother.
  unfold calculate_astrological_authority.
  rewrite lookup_insert_ne by exact Hother.
  rewrite lookup_delete_ne by exact Hother.
  split; reflexivity.
Qed.

Lemma X2_witness :
  calculate_astrological_authority (Some "Mars")
    (<["Saturn" := afflicted_mars]> {[ "Mars" := empty_position ]})
  = calculate_astrological_authority (Some "Mars")
      {[ "Mars" := empty_position ]}.
Proof.
  assert ("Saturn" <> "Mars") as Hne by discriminate.
  exact (proj1 (X2_authority_local "Mars" "Saturn" afflicted_mars
                  {[ "Mars" := empty_position ]} Hne)).
Defined.

Lemma dict_get_In {V : Type} (k : string) (d : list (string * V)) (v : V) :
  dict_get k d = Some v -> In (k, v) d.
Proof.
  induction d as [|[k' v'] rest IH]; simpl; [discriminate|].
  destruct (String.eqb_spec k k') as [->|_].
  - intros [= ->]. left. reflexivity.
  - intros H. right. apply IH, H.
Qed.

Ltac each_dignity_entry H :=
  apply dict_get_In in H; simpl in H;
  repeat (destruct H as [H|H]; [injection H as <- <-|]); [..|contradiction].

(** X3: the neutral defaults of the dignity lookup.  A planet outside the
    table of dignities has multiplier 1.0 in every sign; a position without
    sign has multiplier 1.0 for every planet; and a position entry without
    any key gives every planet the authority 1.0 exactly. *)
Theorem X3_neutral_defaults :
  (forall planet sign : string,
      dict_get planet ESSENTIAL_DIGNITIES = None ->
      _get_dignity_multiplier planet sign = 1.0)
  /\ (forall planet : string, _get_dignity_multiplier planet "" = 1.0)
  /\ (forall (planet : string) (positions : gmap string Position),
         positions !! planet = Some empty_position ->
         calculate_astrological_authority (Some planet) positions = 1.0).
Proof.
  assert (forall planet : string, _get_dignity_multiplier planet "" = 1.0)
    as Hnosign.
  { intros planet. rewrite dignity_multiplier_is_spec. unfold spec_dignity.
    destruct (dict_get planet ESSENTIAL_DIGNITIES) as [entry|] eqn:Hentry;
      [|reflexivity].
    each_dignity_entry Hentry; reflexivity. }
  split; [|split].
  - intros planet sign Hnone. unfold _get_dignity_multiplier.
    rewrite Hnone. reflexivity.
  - exact Hnosign.
  - intros planet positions Hlookup.
    unfold calculate_astrological_authority. rewrite Hlookup.
    cbv zeta. cbn [empty_position pos_sign pos_altitude pos_is_cazimi
                   pos_is_combust pos_is_retrograde pos_is_out_of_bounds
                   default].
    rewrite Hnosign, andb_false_r. reflexivity.
Qed.

Lemma X3_witness :
  _get_dignity_multiplier "Pluto" "Scorpio" = 1.0
  /\ calculate_astrological_authority (Some "Venus")
       {[ "Venus" := empty_position ]} = 1.0.
Proof.
  destruct X3_neutral_defaults as [Hunknown [_ Hempty]]. split.
  - apply Hunknown. reflexivity.
  - apply Hempty. reflexivity.
Defined.

(** X4: for a planet of the table the multiplier is decided by the sign
    alone and the four dignities exclude each other: 1.5 in its rulership,
    1.25 in its exaltation, 0.75 in its detriment, 0.5 in its fall, and 1.0
    in every other sign. *)
Theorem X4_dignity_by_sign :
  forall (planet sign : string) (entry : Dignities),
    dict_get planet ESSENTIAL_DIGNITIES = Some entry ->
    (sign = rulership entry -> _get_dignity_multiplier planet sign = 1.5)
    /\ (sign = exaltation entry -> _get_dignity_multiplier planet sign = 1.25)
    /\ (sign = detriment entry -> _get_dignity_multiplier planet sign = 0.75)
    /\ (sign = fall entry -> _get_dignity_multiplier planet sign = 0.5)
    /\ (sign <> rulership entry -> sign <> exaltation entry ->
        sign <> detriment entry -> sign <> fall entry ->
        _get_dignity_multiplier planet sign = 1.0).
Proof.
  intros planet sign entry Hentry.
  assert (_get_dignity_multiplier planet sign
          = if String.eqb sign (rulership entry) then 1.5
            else if String.eqb sign (exaltation entry) then 1.25
            else if String.eqb sign (detriment entry) then 0.75
            else if String.eqb sign (fall entry) then 0.5
            else 1.0) as Hmult
    by (unfold _get_dignity_multiplier; rewrite Hentry; reflexivity).
  rewrite Hmult. clear Hmult.
  each_dignity_entry Hentry;
    cbn [rulership exaltation detriment fall];
    (repeat split;
     [intros ->; reflexivity ..
     | intros H1 H2 H3 H4;
       apply String.eqb_neq in H1, H2, H3, H4;
       rewrite H1, H2, H3, H4; reflexivity]).
Qed.

Lemma X4_witness :
  _get_dignity_multiplier "Mars" "Capricorn" = 1.25
  /\ _get_dignity_multiplier "Mars" "Leo" = 1.0.
Proof.
  destruct (X4_dignity_by_sign "Mars" "Capricorn"
              {| rulership := "Aries"; exaltation := "Capricorn";
                 detriment := "Libra"; fall := "Cancer" |} eq_refl)
    as (_ & Hex & _).
  destruct (X4_dignity_by_sign "Mars" "Leo"
              {| rulership := "Aries"; exaltation := "Capricorn";
                 detriment := "Libra"; fall := "Cancer" |} eq_refl)
    as (_ & _ & _ & _ & Hother).
  split; [apply Hex; reflexivity | apply Hother; discriminate].
Defined.

(** X5: cazimi takes precedence over combustion: for a planet flagged
    cazimi the authority is the same whatever its [is_combust] key. *)
Theorem X5_cazimi_overrides_combust :
  forall (planet : string) (position : Position) (flag : option bool)
         (positions : gmap string Position),
    pos_is_cazimi position = Some true ->
    calculate_astrological_authority (Some planet)
      (<[planet := with_combust position flag]> positions)
    = calculate_astrological_authority (Some planet)
        (<[planet := position]> positions).
Proof.
  intros planet position flag positions Hcazimi.
  unfold calculate_astrological_authority. rewrite !lookup_insert_eq.
  cbv zeta. cbn [with_combust pos_sign pos_altitude pos_is_cazimi
                 pos_is_combust pos_is_retrograde pos_is_out_of_bounds].
  rewrite Hcazimi. reflexivity.
Qed.

Lemma X5_witness :
  calculate_astrological_authority (Some "Venus")
    {[ "Venus" := {| pos_sign := Some "Pisces"; pos_altitude := Some 48;
                     pos_is_cazimi := Some true; pos_is_combust := Some true;
                     pos_is_retrograde := None;
                     pos_is_out_of_bounds := None |} ]}
  = calculate_astrological_authority (Some "Venus")
      {[ "Venus" := {| pos_sign := Some "Pisces"; pos_altitude := Some 48;
                       pos_is_cazimi := Some true; pos_is_combust := None;
                       pos_is_retrograde := None;
                       pos_is_out_of_bounds := None |} ]}.
Proof.
  pose proof (X5_cazimi_overrides_combust "Venus"
                {| pos_sign := Some "Pisces"; pos_altitude := Some 48;
                   pos_is_cazimi := Some true; pos_is_combust := None;
                   pos_is_retrograde := None;
                   pos_is_out_of_bounds := None |}
                (Some true) ∅ eq_refl) as H.
  exact H.
Defined.

(** X6: the out-of-bounds penalty is the Moon's alone: for any other planet
    the authority is the same whatever its [is_out_of_bounds] key. *)
Theorem X6_out_of_bounds_moon_only :
  forall (planet : string) (position : Position) (flag : option bool)
         (positions : gmap string Position),
    planet <> "Moon" ->
    calculate_astrological_authority (Some planet)
      (<[planet := with_out_of_bounds position flag]> positions)
    = calculate_astrological_authority (Some planet)
        (<[planet := position]> positions).
Proof.
  intros planet position flag positions Hmoon.
  unfold calculate_astrological_authority. rewrite !lookup_insert_eq.
  cbv zeta. cbn [with_out_of_bounds pos_sign pos_altitude pos_is_cazimi
                 pos_is_combust pos_is_retrograde pos_is_out_of_bounds].
  apply String.eqb_neq in Hmoon. rewrite Hmoon. reflexivity.
Qed.

Lemma X6_witness :
  calculate_astrological_authority (Some "Mars")
    (<["Mars" := with_out_of_bounds afflicted_mars (Some true)]> ∅)
  = calculate_astrological_authority (Some "Mars")
      (<["Mars" := afflicted_mars]> ∅).
Proof.
  assert ("Mars" <> "Moon") as Hne by discriminate.
  exact (X6_out_of_bounds_moon_only "Mars" afflicted_mars (Some true) ∅ Hne).
Defined.

(** * Further properties of the temporal relevance *)

(** X7: the temporal relevance lies between 0.432 and 2.0: the floor 0.1
    of the clamp is never reached, only the ceiling is. *)
Theorem X7_temporal_in_range :
  forall (relationship : Relationship)
         (hour_ruler day_ruler current_weekday : option string),
    between 0.432 2.0
      (calculate_temporal_relevance relationship hour_ruler day_ruler
         current_weekday) = true
    /\ calculate_temporal_relevance relationship hour_ruler day_ruler
         current_weekday
       = py_min
           (spec_temporal_base relationship hour_ruler day_ruler
              current_weekday
            * spec_type_multiplier (relationship_type relationship)) 2.0.
Proof.
  intros relationship hour day weekday.
  unfold calculate_temporal_relevance, spec_temporal_base,
    spec_type_multiplier.
  cbv zeta.
  repeat match goal with
         | |- context [py_eq ?a ?b] => destruct (py_eq a b)
         end;
    split; reflexivity.
Qed.

Lemma temporal_weekday_irrelevant (relationship : Relationship)
  (hour_ruler day_ruler weekday weekday' : option string) :
  target_type relationship <> Some "Weekday" ->
  calculate_temporal_relevance relationship hour_ruler day_ruler weekday
  = calculate_temporal_relevance relationship hour_ruler day_ruler weekday'.
Proof.
  intros Htype. apply py_eq_false in Htype.
  unfold calculate_temporal_relevance. cbv zeta. rewrite Htype.
  reflexivity.
Qed.

(** X8: the current weekday matters only for a relationship whose
    [target_type] key is "Weekday": without that key, or with another
    value, the temporal relevance is the same on every weekday. *)
Theorem X8_weekday_needs_target_type :
  forall (relationship : Relationship)
         (hour_ruler day_ruler weekday weekday' : option string),
    target_type relationship <> Some "Weekday" ->
    calculate_temporal_relevance relationship hour_ruler day_ruler weekday
    = calculate_temporal_relevance relationship hour_ruler day_ruler weekday'.
Proof.
  intros relationship hour day weekday weekday' Htype.
  apply temporal_weekday_irrelevant, Htype.
Qed.

Lemma X8_witness :
  calculate_temporal_relevance mars_tuesday (Some "Mars") (Some "Saturn")
    (Some "Saturday")
  = calculate_temporal_relevance mars_tuesday (Some "Mars") (Some "Saturn")
      (Some "Tuesday").
Proof.
  assert (target_type mars_tuesday <> Some "Weekday") as Htype
    by discriminate.
  exact (X8_weekday_needs_target_type mars_tuesday (Some "Mars")
           (Some "Saturn") (Some "Saturday") (Some "Tuesday") Htype).
Defined.

(** X9: the hour ruler comes first: when the source planet is the hour
    ruler, the day ruler has no influence on the temporal relevance. *)
Theorem X9_hour_ruler_first :
  forall (relationship : Relationship)
         (hour_ruler day_ruler day_ruler' current_weekday : option string),
    source_planet relationship = hour_ruler ->
    calculate_temporal_relevance relationship hour_ruler day_ruler
      current_weekday
    = calculate_temporal_relevance relationship hour_ruler day_ruler'
        current_weekday.
Proof.
  intros relationship hour day day' weekday Hsource.
  apply py_eq_true in Hsource.
  unfold calculate_temporal_relevance. cbv zeta. rewrite Hsource.
  reflexivity.
Qed.

Lemma X9_witness :
  calculate_temporal_relevance mars_sachiel (Some "Mars") (Some "Mars")
    (Some "Tuesday")
  = calculate_temporal_relevance mars_sachiel (Some "Mars") (Some "Saturn")
      (Some "Tuesday").
Proof.
  exact (X9_hour_ruler_first mars_sachiel (Some "Mars") (Some "Mars")
           (Some "Saturn") (Some "Tuesday") eq_refl).
Defined.

(** X10: a relationship without source planet, in a context without hour
    ruler, is scored as if its source were the hour ruler: the two absent
    values compare equal. *)
Theorem X10_absent_source_absent_hour :
  forall (relationship : Relationship) (planet : string)
         (day_ruler current_weekday : option string),
    source_planet relationship = None ->
    calculate_temporal_relevance relationship None day_ruler current_weekday
    = calculate_temporal_relevance (with_source relationship (Some planet))
        (Some planet) day_ruler current_weekday.
Proof.
  intros relationship planet day weekday Hsource.
  unfold calculate_temporal_relevance. cbv zeta.
  cbn [with_source source_planet target_type target_name relationship_type].
  rewrite Hsource. cbn [py_eq]. rewrite String.eqb_refl. reflexivity.
Qed.

Lemma X10_witness :
  calculate_temporal_relevance sourceless_iron None (Some "Saturn")
    (Some "Saturday")
  = calculate_temporal_relevance (with_source sourceless_iron (Some "Mars"))
      (Some "Mars") (Some "Saturn") (Some "Saturday").
Proof.
  exact (X10_absent_source_absent_hour sourceless_iron "Mars" (Some "Saturn")
           (Some "Saturday") eq_refl).
Defined.

(** * Further properties of the elemental weather *)

Lemma canonical_ruler_in (ruler : option string) :
  In (canonical_ruler ruler) RULERS.
Proof.
  unfold canonical_ruler, recognized.
  destruct (ruler_cases ruler) as [Hnone | Hin].
  - rewrite Hnone. left. reflexivity.
  - right. simpl in Hin.
    repeat (destruct Hin as [<- | Hin]; [simpl; tauto|]). contradiction.
Qed.

(** The weather is that of the canonical rulers, whatever the positions. *)
Lemma weather_canonical (positions : gmap string Position)
  (hour day : option string) :
  calculate_current_elemental_weather positions hour day
  = calculate_current_elemental_weather ∅ (canonical_ruler hour)
      (canonical_ruler day).
Proof.
  unfold calculate_current_elemental_weather. f_equal.
  unfold elemental_totals, canonical_ruler, recognized.
  destruct (dict_get_opt hour ruler_elements) as [htable|] eqn:Hhour;
    destruct (dict_get_opt day ruler_elements) as [dtable|] eqn:Hday;
    cbn [dict_get_opt]; rewrite ?Hhour, ?Hday; try reflexivity.
  - assert (py_eq day hour = false) as ->
      by (apply unrecognized_neq;
          [exact Hhour | unfold recognized; rewrite Hday; reflexivity]).
    assert (py_eq day None = false) as ->
      by (destruct day; [reflexivity | discriminate]).
    reflexivity.
Qed.

Lemma weather_in_table (positions : gmap string Position)
  (hour day : option string) :
  In (calculate_current_elemental_weather positions hour day) all_weathers.
Proof.
  rewrite weather_canonical. unfold all_weathers.
  apply in_flat_map. exists (canonical_ruler hour).
  split; [apply canonical_ruler_in|].
  apply in_map_iff. exists (canonical_ruler day).
  split; [reflexivity | apply canonical_ruler_in].
Qed.

(** What holds of the weather of all pairs of rulers holds of every
    weather. *)
Lemma weather_forall (P : Weather -> bool) :
  forallb P all_weathers = true ->
  forall (positions : gmap string Position) (hour day : option string),
    P (calculate_current_elemental_weather positions hour day) = true.
Proof.
  intros Hall positions hour day.
  rewrite forallb_forall in Hall. apply Hall, weather_in_table.
Qed.

Lemma dict_update_keys {V : Type} (k : string) (f : V -> V)
  (d : list (string * V)) :
  map fst (dict_update k f d) = map fst d.
Proof.
  induction d as [|[k' v] rest IH]; simpl; [reflexivity|].
  destruct (String.eqb k k'); simpl; [reflexivity | f_equal; exact IH].
Qed.

Lemma add_contributions_keys (influence : float)
  (table : list (string * float)) :
  forall weather : Weather,
    map fst (add_contributions influence table weather) = map fst weather.
Proof.
  unfold add_contributions.
  induction table as [|[element strength] rest IH]; intros weather; simpl;
    [reflexivity|].
  rewrite IH. apply dict_update_keys.
Qed.

Lemma elemental_totals_keys (hour day : option string) :
  map fst (elemental_totals hour day) = ELEMENT_AXES.
Proof.
  unfold elemental_totals.
  destruct (dict_get_opt day ruler_elements) as [dtable|];
    [destruct (negb (py_eq day hour))|];
    destruct (dict_get_opt hour ruler_elements) as [htable|];
    rewrite ?add_contributions_keys; reflexivity.
Qed.

(** X11: the weather always has the eight axes, in their fixed order, and
    every strength lies between 0 and 1. *)
Theorem X11_weather_axes_and_range :
  forall (positions : gmap string Position) (hour day : option string),
    map fst (calculate_current_elemental_weather positions hour day)
    = ELEMENT_AXES
    /\ forallb (between 0 1)
         (dict_values
            (calculate_current_elemental_weather positions hour day))
       = true.
Proof.
  intros positions hour day. split.
  - unfold calculate_current_elemental_weather. cbv zeta.
    destruct (0 <? _); [|apply elemental_totals_keys].
    rewrite map_map. rewrite <- (elemental_totals_keys hour day).
    apply map_ext. intros [axis v]. reflexivity.
  - exact (weather_forall (fun w => forallb (between 0 1) (dict_values w))
             ltac:(vm_compute; reflexivity) positions hour day).
Qed.



(** * Further properties of the elemental dominance *)

(** X13: against the weather of the engine the elemental dominance lies
    between 1.0 and 1.5, so the floor 0.5 of its clamp is never reached;
    and an entity without elemental signature scores 1.0 against any
    weather at all. *)
Theorem X13_dominance_in_range :
  forall (entity : Entity),
    (forall (positions : gmap string Position) (hour day : option string),
        between 1.0 1.5
          (calculate_elemental_dominance entity
             (calculate_current_elemental_weather positions hour day))
        = true)
    /\ (_get_entity_elements entity = [] ->
        forall weather : Weather,
          calculate_elemental_dominance entity weather = 1.0).
Proof.
  intros entity. split.
  - intros positions hour day.
    unfold calculate_elemental_dominance, _get_entity_elements.
    cbv zeta.
    destruct (py_contains "Iron" _);
      [|destruct (py_contains "Silver" _);
        [|destruct (py_contains "Gold" _)]];
      try reflexivity;
      match goal with
      | |- ?lhs = true =>
          match eval pattern
                  (calculate_current_elemental_weather positions hour day)
                in lhs with
          | ?P _ =>
              exact (weather_forall P ltac:(vm_compute; reflexivity)
                       positions hour day)
          end
      end.
  - intros Hnone weather. unfold calculate_elemental_dominance.
    rewrite Hnone. reflexivity.
Qed.

Lemma X13_witness :
  calculate_elemental_dominance
    {| ent_name := Some "Sachiel"; ent_type := Some "Angel" |}
    [("Fire", 7.5); ("Dry", nan)] = 1.0.
Proof.
  exact (proj2 (X13_dominance_in_range
                  {| ent_name := Some "Sachiel"; ent_type := Some "Angel" |})
           eq_refl [("Fire", 7.5); ("Dry", nan)]).
Defined.

(** * Further properties of the elemental signature *)

Lemma py_contains_unfold (needle hay : string) :
  py_contains needle hay
  = String.prefix needle hay
    || match hay with
       | EmptyString => false
       | String _ rest => py_contains needle rest
       end.
Proof. destruct hay; reflexivity. Qed.

Lemma prefix_append (needle after : string) :
  String.prefix needle (String.append needle after) = true.
Proof.
  induction needle as [|a needle IH]; simpl.
  - destruct after; reflexivity.
  - destruct (Ascii.ascii_dec a a); [exact IH | contradiction].
Qed.

Lemma prefix_is_append (needle hay : string) :
  String.prefix needle hay = true ->
  exists after, hay = String.append needle after.
Proof.
  revert hay. induction needle as [|a needle IH]; intros hay H.
  - exists hay. reflexivity.
  - destruct hay as [|b hay]; simpl in H; [discriminate|].
    destruct (Ascii.ascii_dec a b) as [->|]; [|discriminate].
    destruct (IH hay H) as [after ->]. exists after. reflexivity.
Qed.

(** The substring test holds exactly when the needle occurs in the
    string. *)
Lemma py_contains_occurs (needle hay : string) :
  py_contains needle hay = true <-> occurs_in needle hay.
Proof.
  split.
  - induction hay as [|c hay IH]; rewrite py_contains_unfold; intros H;
      apply orb_prop in H; destruct H as [H | H]; try discriminate.
    + destruct (prefix_is_append _ _ H) as [after ->].
      exists EmptyString, after. reflexivity.
    + destruct (prefix_is_append _ _ H) as [after ->].
      exists EmptyString, after. reflexivity.
    + destruct (IH H) as [before [after ->]].
      exists (String c before), after. reflexivity.
  - intros [before [after ->]].
    induction before as [|c before IH]; rewrite py_contains_unfold.
    + change (String.append EmptyString (String.append needle after))
        with (String.append needle after).
      rewrite prefix_append. reflexivity.
    + simpl. rewrite IH. apply orb_true_r.
Qed.

Lemma py_contains_absent (needle hay : string) :
  py_contains needle hay = false <-> ~ occurs_in needle hay.
Proof.
  split.
  - intros H Hoccurs. apply py_contains_occurs in Hoccurs. congruence.
  - intros H. destruct (py_contains needle hay) eqn:E; [|reflexivity].
    apply py_contains_occurs in E. contradiction.
Qed.

(** X14: the elemental signature goes by substrings of the entity name,
    the first match winning: a name in which "Iron" occurs is Fire and Dry;
    failing that, one with "Silver" is Water and Moist; failing that, one
    with "Gold" is Fire and Hot; any other name, and a missing name, has no
    signature. *)
Theorem X14_signature_by_substring :
  forall entity : Entity,
    let name := default "" (ent_name entity) in
    (occurs_in "Iron" name -> _get_entity_elements entity = ["Fire"; "Dry"])
    /\ (~ occurs_in "Iron" name -> occurs_in "Silver" name ->
        _get_entity_elements entity = ["Water"; "Moist"])
    /\ (~ occurs_in "Iron" name -> ~ occurs_in "Silver" name ->
        occurs_in "Gold" name ->
        _get_entity_elements entity = ["Fire"; "Hot"])
    /\ (~ occurs_in "Iron" name -> ~ occurs_in "Silver" name ->
        ~ occurs_in "Gold" name ->
        _get_entity_elements entity = [])
    /\ (ent_name entity = None -> _get_entity_elements entity = []).
Proof.
  intros entity name. unfold _get_entity_elements. fold name.
  repeat split.
  - intros Hiron. apply py_contains_occurs in Hiron. rewrite Hiron.
    reflexivity.
  - intros Hiron Hsilver. apply py_contains_absent in Hiron.
    apply py_contains_occurs in Hsilver. rewrite Hiron, Hsilver.
    reflexivity.
  - intros Hiron Hsilver Hgold.
    apply py_contains_absent in Hiron, Hsilver.
    apply py_contains_occurs in Hgold. rewrite Hiron, Hsilver, Hgold.
    reflexivity.
  - intros Hiron Hsilver Hgold.
    apply py_contains_absent in Hiron, Hsilver, Hgold.
    rewrite Hiron, Hsilver, Hgold. reflexivity.
  - intros Hnone. subst name. rewrite Hnone. reflexivity.
Qed.

Lemma X14_witness :
  _get_entity_elements
    {| ent_name := Some "Golden Iron Ring"; ent_type := None |}
  = ["Fire"; "Dry"].
Proof.
  apply (proj1 (X14_signature_by_substring
                  {| ent_name := Some "Golden Iron Ring";
                     ent_type := None |})).
  exists "Golden ", " Ring". reflexivity.
Defined.

(** * Further properties of the master function *)


(** X16: the result does not depend on what the graph contains, only on
    whether [graph_data] is present and non-empty; nor on the [type] key of
    the target entity. *)
Theorem X16_graph_contents_not_read :
  forall (self : GraphWeightingEngine) (relationship : Relationship)
         (context : Context) (graph graph' : option Graph),
    truthy_map graph = truthy_map graph' ->
    calculate_final_weight self relationship (with_graph_data context graph)
    = calculate_final_weight self relationship
        (with_graph_data context graph')
    /\ forall (name type type' : option string),
         calculate_final_weight self
           (with_entity relationship
              (Some {| ent_name := name; ent_type := type |}))
           context
         = calculate_final_weight self
             (with_entity relationship
                (Some {| ent_name := name; ent_type := type' |}))
             context.
Proof.
  intros self relationship context graph graph' Htruthy. split.
  - unfold calculate_final_weight, _calculate_confidence.
    cbn [with_graph_data hour_ruler day_ruler current_weekday
         planetary_positions graph_data].
    rewrite Htruthy. reflexivity.
  - intros name type type'. reflexivity.
Qed.

Lemma X16_witness :
  calculate_final_weight init mars_iron
    (with_graph_data context_saturday_mars (Some venus_copper_graph))
  = calculate_final_weight init mars_iron
      (with_graph_data context_saturday_mars
         (Some {[ "Mars" := ["Iron"]; "Iron" := ["Mars"] ]})).
Proof.
  assert (truthy_map (Some venus_copper_graph)
          = truthy_map (Some ({[ "Mars" := ["Iron"]; "Iron" := ["Mars"] ]}
                              : Graph))) as Htruthy
    by (vm_compute; reflexivity).
  exact (proj1 (X16_graph_contents_not_read init mars_iron
                  context_saturday_mars _ _ Htruthy)).
Defined.

(** X17: for the relationships of the file's own scenarios, which carry the
    target in [target_entity] and have no [target_type] key, the whole
    result is the same on every weekday. *)
Theorem X17_result_same_on_every_weekday :
  forall (self : GraphWeightingEngine) (relationship : Relationship)
         (context : Context) (weekday : option string),
    target_type relationship <> Some "Weekday" ->
    calculate_final_weight self relationship (with_weekday context weekday)
    = calculate_final_weight self relationship context.
Proof.
  intros self relationship context weekday Htype.
  unfold calculate_final_weight.
  cbn [with_weekday hour_ruler day_ruler current_weekday
       planetary_positions graph_data].
  rewrite (temporal_weekday_irrelevant relationship (hour_ruler context)
             (day_ruler context) weekday (current_weekday context) Htype).
  reflexivity.
Qed.

Lemma X17_witness :
  calculate_final_weight init mars_tuesday
    (with_weekday context_saturday_mars (Some "Tuesday"))
  = calculate_final_weight init mars_tuesday context_saturday_mars.
Proof.
  assert (target_type mars_tuesday <> Some "Weekday") as Htype
    by discriminate.
  exact (X17_result_same_on_every_weekday init mars_tuesday
           context_saturday_mars (Some "Tuesday") Htype).
Defined.

(** * Further properties of the graph proximity *)

(** X18: whatever the graph, the proximity weight is 1.0, 0.4 or 0.1: the
    reported path length is 1, 3 or 0, so the buckets 0.7 and 0.2 are never
    returned; and a missing source always gives 0.4. *)
Theorem X18_proximity_values :
  forall (source : option string) (target : string) (graph : Graph),
    (_find_shortest_path_length source target graph = 1%Z
     /\ calculate_graph_proximity_weight source target graph = 1.0
     \/ _find_shortest_path_length source target graph = 3%Z
        /\ calculate_graph_proximity_weight source target graph = 0.4
     \/ _find_shortest_path_length source target graph = 0%Z
        /\ calculate_graph_proximity_weight source target graph = 0.1)
    /\ calculate_graph_proximity_weight source target graph <> 0.7
    /\ calculate_graph_proximity_weight source target graph <> 0.2
    /\ calculate_graph_proximity_weight None target graph = 0.4.
Proof.
  intros source target graph.
  split; [|split; [|split]]; try reflexivity;
    unfold calculate_graph_proximity_weight, _find_shortest_path_length;
    destruct (py_eq source (Some target));
    try destruct (py_in target _); cbn;
    try float_discriminate; tauto.
Qed.

(** X19: direct connections go one way.  Whenever the target is directly
    connected to the source (weight 1.0), the source is not directly
    connected to the target: the reverse weight is 0.4. *)
Theorem X19_direct_connections_one_way :
  forall (source target : string) (graph : Graph),
    _find_shortest_path_length (Some source) target graph = 1%Z ->
    calculate_graph_proximity_weight (Some source) target graph = 1.0
    /\ _find_shortest_path_length (Some target) source graph = 3%Z
    /\ calculate_graph_proximity_weight (Some target) source graph = 0.4.
Proof.
  intros source target graph Hdirect.
  split; [rewrite proximity_is_bucket, Hdirect; reflexivity|].
  assert (_find_shortest_path_length (Some target) source graph = 3%Z)
    as Hback.
  { unfold _find_shortest_path_length in Hdirect.
    destruct (py_eq (Some source) (Some target)); [discriminate|].
    destruct (py_in target _) eqn:Hin; [|discriminate].
    unfold dict_get_opt, direct_connections, dict_get in Hin.
    repeat match type of Hin with
           | context [String.eqb source ?key] =>
               destruct (String.eqb_spec source key) as [->|_]
           end;
      [..|simpl in Hin; discriminate Hin];
      unfold py_in in Hin; simpl in Hin;
      repeat match type of Hin with
             | context [String.eqb target ?name] =>
                 destruct (String.eqb_spec target name) as [->|_];
                 [reflexivity|]
             end;
      simpl in Hin; discriminate Hin. }
  split; [exact Hback|].
  rewrite proximity_is_bucket, Hback. reflexivity.
Qed.

Lemma X19_witness :
  calculate_graph_proximity_weight (Some "Sun") "Gold" ∅ = 1.0
  /\ calculate_graph_proximity_weight (Some "Gold") "Sun" ∅ = 0.4.
Proof.
  destruct (X19_direct_connections_one_way "Sun" "Gold" ∅ eq_refl)
    as [Hthere [_ Hback]].
  split; assumption.
Defined.

(** * Further properties of the rank *)

Section Order.
Local Open Scope Z_scope.

(** The order of the specification is transitive. *)
Lemma SFleb_trans (a b c : spec_float) :
  SFleb a b = true -> SFleb b c = true -> SFleb a c = true.
Proof.
  unfold SFleb.
  destruct a as [sa|sa| |sa ma ea], b as [sb|sb| |sb mb eb],
           c as [sc|sc| |sc mc ec];
    simpl; try discriminate; try reflexivity;
    try (destruct sa; simpl; try discriminate; try reflexivity);
    try (destruct sb; simpl; try discriminate; try reflexivity);
    try (destruct sc; simpl; try discriminate; try reflexivity);
    destruct (Z.compare_spec ea eb); destruct (Z.compare_spec eb ec);
    destruct (Z.compare_spec ea ec); simpl;
    try discriminate; try reflexivity; try lia;
    subst;
    repeat match goal with
           | |- context [Pos.compare_cont Eq ?p ?q] =>
               change (Pos.compare_cont Eq p q) with (Pos.compare p q)
           end;
    destruct (Pos.compare_spec ma mb); destruct (Pos.compare_spec mb mc);
    destruct (Pos.compare_spec ma mc); simpl;
    try discriminate; try reflexivity; lia.
Qed.
End Order.

Lemma leb_trans (x y z : float) :
  (x <=? y) = true -> (y <=? z) = true -> (x <=? z) = true.
Proof. rewrite !leb_spec. apply SFleb_trans. Qed.

(** X20: the rank is monotone in the weight: of two weights the greater
    never gets the lower label, in the order minimal, weak, moderate,
    strong, dominant. *)
Theorem X20_rank_monotone :
  forall weight weight' : float,
    (weight <=? weight') = true ->
    (rank_level (_calculate_rank weight)
     <= rank_level (_calculate_rank weight'))%nat.
Proof.
  intros w w' Hle. unfold _calculate_rank.
  destruct (2.0 <=? w) eqn:H4.
  { rewrite (leb_trans _ _ _ H4 Hle). apply Nat.le_refl. }
  destruct (1.5 <=? w) eqn:H3.
  { rewrite (leb_trans _ _ _ H3 Hle).
    destruct (2.0 <=? w'); cbn; lia. }
  destruct (1.0 <=? w) eqn:H2.
  { rewrite (leb_trans _ _ _ H2 Hle).
    destruct (2.0 <=? w'); [cbn; lia|].
    destruct (1.5 <=? w'); cbn; lia. }
  destruct (0.5 <=? w) eqn:H1.
  { rewrite (leb_trans _ _ _ H1 Hle).
    destruct (2.0 <=? w'); [cbn; lia|].
    destruct (1.5 <=? w'); [cbn; lia|].
    destruct (1.0 <=? w'); cbn; lia. }
  cbn. lia.
Qed.

Lemma X20_witness :
  (rank_level (_calculate_rank 0.49983333333333335)
   <= rank_level (_calculate_rank 1.55))%nat.
Proof.
  exact (X20_rank_monotone 0.49983333333333335 1.55 eq_refl).
Defined.

(** * Further properties: what the scores ignore and how they order *)

Lemma dominance_fold_filter (elements : list string) (weather : Weather) :
  forall score : float,
    fold_left
      (fun score '(element, strength) =>
         if py_in element elements then score + strength * 0.3 else score)
      weather score
    = fold_left
        (fun score '(element, strength) =>
           if py_in element elements then score + strength * 0.3 else score)
        (List.filter (fun entry => py_in (fst entry) elements) weather) score.
Proof.
  induction weather as [|[element strength] rest IH]; intros score; simpl;
    [reflexivity|].
  destruct (py_in element elements) eqn:Hin; simpl; rewrite ?Hin; apply IH.
Qed.

(** X21: the elemental dominance looks only at the axes of the entity's
    signature: two weathers with the same entries on those axes, in the
    same order, give the same score, whatever their other entries. *)
Theorem X21_dominance_signature_only :
  forall (entity : Entity) (weather weather' : Weather),
    signature_part entity weather = signature_part entity weather' ->
    calculate_elemental_dominance entity weather
    = calculate_elemental_dominance entity weather'.
Proof.
  intros entity weather weather' Hsame.
  unfold calculate_elemental_dominance. cbv zeta.
  destruct (_get_entity_elements entity) as [|e es] eqn:Helements;
    [reflexivity|].
  rewrite (dominance_fold_filter (e :: es) weather).
  rewrite (dominance_fold_filter (e :: es) weather').
  unfold signature_part in Hsame. rewrite Helements in Hsame.
  rewrite Hsame. reflexivity.
Qed.

Lemma X21_witness :
  calculate_elemental_dominance
    {| ent_name := Some "Iron"; ent_type := None |}
    [("Fire", 0.5); ("Water", 1.0); ("Dry", 0.25)]
  = calculate_elemental_dominance
      {| ent_name := Some "Iron"; ent_type := None |}
      [("Air", 0.75); ("Fire", 0.5); ("Dry", 0.25); ("Cold", nan)].
Proof.
  exact (X21_dominance_signature_only
           {| ent_name := Some "Iron"; ent_type := None |}
           [("Fire", 0.5); ("Water", 1.0); ("Dry", 0.25)]
           [("Air", 0.75); ("Fire", 0.5); ("Dry", 0.25); ("Cold", nan)]
           eq_refl).
Defined.

(** X22: the relationship types order the temporal relevance.  With all
    else equal a HAS_ANALOGY_WITH relationship scores at most what a
    DAY_RULED_BY one does, and that at most what a HOUR_RULED_BY one does;
    a relationship without type scores as a DAY_RULED_BY one. *)
Theorem X22_relationship_types_ordered :
  forall (relationship : Relationship)
         (hour_ruler day_ruler current_weekday : option string),
    let relevance rel_type :=
      calculate_temporal_relevance
        (with_relationship_type relationship rel_type)
        hour_ruler day_ruler current_weekday in
    (relevance (Some "HAS_ANALOGY_WITH") <=? relevance (Some "DAY_RULED_BY"))
    = true
    /\ (relevance (Some "DAY_RULED_BY") <=? relevance (Some "HOUR_RULED_BY"))
       = true
    /\ relevance None = relevance (Some "DAY_RULED_BY").
Proof.
  intros relationship hour day weekday relevance. subst relevance.
  unfold calculate_temporal_relevance. cbv zeta.
  cbn [with_relationship_type source_planet target_type target_name
       relationship_type].
  repeat match goal with
         | |- context [py_eq ?a ?b] =>
             lazymatch a with
             | Some (String _ _) => fail
             | None => fail
             | _ => destruct (py_eq a b)
             end
         end;
    repeat split; reflexivity.
Qed.

(** X23: the temporal mismatch costs more than ruling nothing: an hour-ruler
    relationship to a Weekday other than the current one scores strictly
    below a relationship of the same type whose source planet rules neither
    the hour nor the day. *)
Theorem X23_mismatch_below_non_ruler :
  forall (mismatched plain : Relationship)
         (hour_ruler day_ruler current_weekday : option string),
    source_planet mismatched = hour_ruler ->
    target_type mismatched = Some "Weekday" ->
    target_name mismatched <> current_weekday ->
    source_planet plain <> hour_ruler ->
    source_planet plain <> day_ruler ->
    relationship_type plain = relationship_type mismatched ->
    (calculate_temporal_relevance mismatched hour_ruler day_ruler
       current_weekday
     <? calculate_temporal_relevance plain hour_ruler day_ruler
          current_weekday) = true.
Proof.
  intros mismatched plain hour day weekday Hsource Htype Hname Hhour Hday
    Hrel.
  apply py_eq_true in Hsource. apply py_eq_false in Hname, Hhour, Hday.
  unfold calculate_temporal_relevance. cbv zeta.
  rewrite Hsource, Htype, Hname, Hhour, Hday, Hrel.
  cbn [py_eq]. rewrite String.eqb_refl. cbn [andb negb].
  repeat match goal with
         | |- context [py_eq ?a ?b] => destruct (py_eq a b)
         end;
    reflexivity.
Qed.

Lemma X23_witness :
  (calculate_temporal_relevance
     {| source_planet := Some "Mars"; target_entity := None;
        target_type := Some "Weekday"; target_name := Some "Tuesday";
        relationship_type := Some "DAY_RULED_BY" |}
     (Some "Mars") (Some "Saturn") (Some "Saturday")
   <? calculate_temporal_relevance
        {| source_planet := Some "Venus"; target_entity := None;
           target_type := None; target_name := None;
           relationship_type := Some "DAY_RULED_BY" |}
        (Some "Mars") (Some "Saturn") (Some "Saturday")) = true.
Proof.
  apply X23_mismatch_below_non_ruler;
    first [reflexivity | discriminate].
Defined.

